(** * dbag: the metric registry, metric creation and the collection workflow

    A shallow embedding of [dbag/models.py].  The Django models [Metric]
    and [DatumSample] become records, their tables become lists of rows in
    insertion order, the [MetricManager._registry] dict becomes a [gmap]
    keyed by strings, and the methods become computations in a small
    state-and-exception monad: a Python exception leaves every write made
    before it in place (there is no transaction around the methods), so a
    computation always hands back the world it reached, together with
    either its return value or the exception it raised. *)

From Stdlib Require Import ZArith List Permutation Sorting.Sorted.
From stdpp Require Import base decidable option list gmap strings sorting.

Local Open Scope Z_scope.
Local Open Scope string_scope.

(** ** Python values and exceptions *)

(** The exceptions the modelled code can raise.  [Exception] is the bare
    [Exception(...)] of [create_metric]; the others are raised by the
    interpreter ([TypeError] on calling [None], [KeyError] from
    [dict.pop]), by the ORM ([IndexError] on indexing an empty query set,
    [IntegrityError] on a violated [unique=True], [OverflowError] on an
    integer that does not fit the column) or by a plug-in. *)
Inductive exn : Type :=
  | Exception (msg : string)
  | TypeError (msg : string)
  | KeyError (key : string)
  | IndexError (msg : string)
  | IntegrityError (msg : string)
  | OverflowError (msg : string)
  | PluginError (msg : string).

(** The values a keyword argument of [create_metric] can carry into the
    [metric_properties] JSON field. *)
Inductive PyValue : Type :=
  | PyNone
  | PyBool (b : bool)
  | PyInt (n : Z)
  | PyStr (s : string).

(** How a call ends. *)
Inductive outcome (A : Type) : Type :=
  | Returned (a : A)
  | Raised (e : exn).
Arguments Returned {A} a.
Arguments Raised {A} e.

(** ** The persisted entities *)

Record Metric : Type := mkMetric {
  metric_pk : nat;
  metric_type_label : string;
  metric_properties : gmap string PyValue;
  slug : string;
  label : string;
  description : option string;
  unit_label : string;
  unit_label_plural : string;
  do_collect : bool
}.

(** [metric] is the foreign key: the primary key of the owning [Metric]. *)
Record DatumSample : Type := mkDatumSample {
  sample_pk : nat;
  metric : nat;
  utc_timestamp : Z;
  value : Z
}.

(** The two tables, rows in insertion order, and the two primary-key
    sequences of the storage engine. *)
Record Storage : Type := mkStorage {
  Metric_objects : list Metric;
  DatumSample_objects : list DatumSample;
  Metric_next_pk : nat;
  DatumSample_next_pk : nat
}.

(** ** Metric types *)

(** A registered metric type is a class: calling it builds an instance,
    and [gather_data_sample] of the instance, given the metric, reads what
    it needs and returns an integer or raises. *)
Record MetricType : Type := mkMetricType {
  gather_data_sample : Storage -> Metric -> outcome Z
}.

Record MetricManager : Type := mkMetricManager {
  _registry : gmap string MetricType
}.

(** ** The world and the monad *)

(** [utc_clock] is what [datetime.datetime.utcnow()] answers at its n-th
    call; [utc_reads] counts the calls made so far. *)
Record World : Type := mkWorld {
  manager : MetricManager;
  storage : Storage;
  utc_clock : nat -> Z;
  utc_reads : nat
}.

Definition M (A : Type) : Type := World -> outcome A * World.

Definition ret {A} (a : A) : M A := fun w => (Returned a, w).

Definition raise {A} (e : exn) : M A := fun w => (Raised e, w).

Definition bind {A B} (c : M A) (k : A -> M B) : M B :=
  fun w =>
    match c w with
    | (Returned a, w') => k a w'
    | (Raised e, w') => (Raised e, w')
    end.

Notation "x <- c ;; k" := (bind c (fun x => k))
  (at level 100, c at next level, right associativity).
Notation "c ;;; k" := (bind c (fun _ => k))
  (at level 100, right associativity).

(** [for x in xs: body(x)] *)
Fixpoint for_each {A} (xs : list A) (body : A -> M unit) : M unit :=
  match xs with
  | [] => ret tt
  | x :: xs' => body x ;;; for_each xs' body
  end.

Definition get_manager : M MetricManager := fun w => (Returned (manager w), w).

Definition set_registry (r : gmap string MetricType) : M unit :=
  fun w =>
    (Returned tt,
     mkWorld (mkMetricManager r) (storage w) (utc_clock w) (utc_reads w)).

Definition get_storage : M Storage := fun w => (Returned (storage w), w).

Definition set_storage (s : Storage) : M unit :=
  fun w => (Returned tt, mkWorld (manager w) s (utc_clock w) (utc_reads w)).

(** [datetime.datetime.utcnow()] *)
Definition utcnow : M Z :=
  fun w =>
    (Returned (utc_clock w (utc_reads w)),
     mkWorld (manager w) (storage w) (utc_clock w) (S (utc_reads w))).

(** ** MetricManager: the registry *)

(** [self._registry[label] = metric_type] *)
Definition register_metric_type (label : string) (metric_type : MetricType)
  : M unit :=
  self <- get_manager ;;
  set_registry (<[label := metric_type]> (_registry self)).

(** [self._registry.pop(label)]: [dict.pop] without a default raises
    [KeyError] on a missing key. *)
Definition unregister_metric_type (label : string) : M unit :=
  self <- get_manager ;;
  match _registry self !! label with
  | Some _ => set_registry (delete label (_registry self))
  | None => raise (KeyError label)
  end.

(** [return self._registry.get(label)]: [None] when the key is missing. *)
Definition get_metric_type (label : string) : M (option MetricType) :=
  self <- get_manager ;;
  ret (_registry self !! label).

Definition get_metric_types : M (gmap string MetricType) :=
  self <- get_manager ;;
  ret (_registry self).

(** ** The ORM calls the methods make *)

(** [unique=True] on [Metric.slug]: the insert is refused when a row
    already carries the slug.  ([create] runs no field validation, so
    [max_length] is left to the storage engine and is not modelled; the
    text of the [IntegrityError] is the engine's too.) *)
Definition slug_taken (s : string) (db : Storage) : bool :=
  existsb (fun m => String.eqb (slug m) s) (Metric_objects db).

(** [Metric.objects.create(metric_type_label=..., label=..., slug=...,
    description=..., metric_properties=...)].  The fields the call leaves
    out take their defaults: the empty string for the two unit labels,
    [True] for [do_collect]. *)
Definition Metric_objects_create (metric_type_label label slug : string)
    (description : option string) (metric_properties : gmap string PyValue)
  : M Metric :=
  db <- get_storage ;;
  if slug_taken slug db
  then raise (IntegrityError "column slug is not unique")
  else
    let row :=
      mkMetric (Metric_next_pk db) metric_type_label metric_properties slug
               label description "" "" true in
    set_storage
      (mkStorage (Metric_objects db ++ [row]) (DatumSample_objects db)
                 (S (Metric_next_pk db)) (DatumSample_next_pk db)) ;;;
    ret row.

(** [Metric.objects.filter(do_collect=True)], in the storage's default
    order (the model has no [ordering]). *)
Definition Metric_objects_filter_do_collect : M (list Metric) :=
  db <- get_storage ;;
  ret (List.filter do_collect (Metric_objects db)).

(** [value = models.BigIntegerField()]: the column holds the signed
    64-bit integers. *)
Definition bigint_ok (v : Z) : bool :=
  Z.leb (- 2 ^ 63) v && Z.leb v (2 ^ 63 - 1).

(** [DatumSample.objects.create(metric=self, utc_timestamp=..., value=...)].
    A Python integer is unbounded; one that does not fit the column is
    refused by the insert, which then writes no row.  (The class and the
    text of the exception are the storage engine's.) *)
Definition DatumSample_objects_create (self : Metric) (utc_timestamp value : Z)
  : M DatumSample :=
  db <- get_storage ;;
  if bigint_ok value
  then
    let row :=
      mkDatumSample (DatumSample_next_pk db) (metric_pk self) utc_timestamp
                    value in
    set_storage
      (mkStorage (Metric_objects db) (DatumSample_objects db ++ [row])
                 (Metric_next_pk db) (S (DatumSample_next_pk db))) ;;;
    ret row
  else
    raise (OverflowError "Python int too large to convert to SQLite INTEGER").

(** The rows of [DatumSample] whose foreign key is [self]. *)
Definition samples_of (self : Metric) (db : Storage) : list DatumSample :=
  List.filter (fun s => Nat.eqb (metric s) (metric_pk self))
              (DatumSample_objects db).

(** [Meta.ordering = ['-utc_timestamp']]: [a] comes before [b] when it
    is newer.  The ordering says nothing of rows with the same timestamp,
    whose order is the storage engine's: they are taken in the order of
    their primary keys, the order the rows were written in. *)
Definition newest_first (a b : DatumSample) : Prop :=
  utc_timestamp b < utc_timestamp a \/
  (utc_timestamp b = utc_timestamp a /\ (sample_pk a <= sample_pk b)%nat).

#[global] Instance newest_first_dec : RelDecision newest_first.
Proof. intros a b. unfold newest_first. apply _. Defined.

(** [DatumSample.objects.filter(metric=self)], ordered by the model's
    default ordering. *)
Definition DatumSample_objects_filter_metric (self : Metric)
  : M (list DatumSample) :=
  db <- get_storage ;;
  ret (merge_sort newest_first (samples_of self db)).

(** ** Metric *)

(** [return DatumSample.objects.filter(metric=self)[0]] *)
Definition get_latest_sample (self : Metric) : M DatumSample :=
  qs <- DatumSample_objects_filter_metric self ;;
  match qs with
  | s :: _ => ret s
  | [] => raise (IndexError "list index out of range")
  end.

(** [metric_type_cls()] where [metric_type_cls] is what the registry's
    [get] returned: calling [None] raises [TypeError]. *)
Definition instantiate (metric_type_cls : option MetricType) : M MetricType :=
  match metric_type_cls with
  | Some cls => ret cls
  | None => raise (TypeError "'NoneType' object is not callable")
  end.

(** [metric_type.gather_data_sample(self)] *)
Definition call_gather_data_sample (metric_type : MetricType) (self : Metric)
  : M Z :=
  db <- get_storage ;;
  match gather_data_sample metric_type db self with
  | Returned v => ret v
  | Raised e => raise e
  end.

Definition collect_metric (self : Metric) : M unit :=
  metric_type_cls <- get_metric_type (metric_type_label self) ;;
  metric_type <- instantiate metric_type_cls ;;
  data_value <- call_gather_data_sample metric_type self ;;
  now <- utcnow ;;
  DatumSample_objects_create self now data_value ;;;
  ret tt.

(** ** MetricManager: creation and collection *)

(** Python truth of an optional string: [None] and [''] are false. *)
Definition truthy_str (s : option string) : bool :=
  match s with
  | Some s' => negb (String.eqb s' "")
  | None => false
  end.

Section WithSlugify.

(** [django.template.defaultfilters.slugify] *)
Variable slugify : string -> string.

(** [create_metric(self, metric_type_label, label, slug=None,
    description=None, *args, **kwargs)]; the extra positional arguments
    are never read.  A registered class is a true value, so the first
    test fails exactly when the registry's [get] returned [None]. *)
Definition create_metric (metric_type_label label : string)
    (slug description : option string) (kwargs : gmap string PyValue)
  : M Metric :=
  metric_type_cls <- get_metric_type metric_type_label ;;
  match metric_type_cls with
  | None =>
      raise (Exception ("MetricType doesn't exist with label "
                        ++ metric_type_label))
  | Some _ =>
      let slug :=
        match slug with
        | Some s => if truthy_str slug then s else slugify label
        | None => slugify label
        end in
      let metric_properties :=
        if Nat.eqb (size kwargs) 0 then ∅ else kwargs in
      Metric_objects_create metric_type_label label slug description
                            metric_properties
  end.

End WithSlugify.

Definition collect_metrics : M unit :=
  qs <- Metric_objects_filter_do_collect ;;
  for_each qs collect_metric.

(** ** Reading a run *)

Definition result {A} (c : M A) (w : World) : outcome A := fst (c w).

Definition world_after {A} (c : M A) (w : World) : World := snd (c w).

Definition registry_of (w : World) : gmap string MetricType :=
  _registry (manager w).

(** Primary keys are unique and were all handed out by the sequence: what
    the storage engine guarantees of the [Metric] table. *)
Definition storage_ok (db : Storage) : Prop :=
  List.NoDup (map metric_pk (Metric_objects db)) /\
  Forall (fun m => (metric_pk m < Metric_next_pk db)%nat) (Metric_objects db).

(** The sample [collect_metric] writes for [self] when the strategy
    answered [v] in world [w]. *)
Definition collected_sample (self : Metric) (v : Z) (w : World) : DatumSample :=
  mkDatumSample (DatumSample_next_pk (storage w)) (metric_pk self)
                (utc_clock w (utc_reads w)) v.

(** The world [collect_metric] leaves when the insert was refused: the
    clock has been read, nothing is written. *)
Definition world_clock_read (w : World) : World :=
  mkWorld (manager w) (storage w) (utc_clock w) (S (utc_reads w)).

(** No two rows of the [Metric] table share a primary key. *)
Definition pks_unique (db : Storage) : Prop :=
  List.NoDup (map metric_pk (Metric_objects db)).

(** The world [collect_metric] leaves when it stored [row]. *)
Definition world_with_sample (row : DatumSample) (w : World) : World :=
  mkWorld (manager w)
          (mkStorage (Metric_objects (storage w))
                     (DatumSample_objects (storage w) ++ [row])
                     (Metric_next_pk (storage w))
                     (S (DatumSample_next_pk (storage w))))
          (utc_clock w) (S (utc_reads w)).

(** The row [create_metric] inserts. *)
Definition created_metric (metric_type_label label slug : string)
    (description : option string) (kwargs : gmap string PyValue) (w : World)
  : Metric :=
  mkMetric (Metric_next_pk (storage w)) metric_type_label kwargs slug label
           description "" "" true.

(** The world [create_metric] leaves when it inserted [row]. *)
Definition world_with_metric (row : Metric) (w : World) : World :=
  mkWorld (manager w)
          (mkStorage (Metric_objects (storage w) ++ [row])
                     (DatumSample_objects (storage w))
                     (S (Metric_next_pk (storage w)))
                     (DatumSample_next_pk (storage w)))
          (utc_clock w) (utc_reads w).

(** ** Worlds to run the code on *)

(** Modelled from the spec: Django's [slugify] is not part of this
    repository and the theorems below take it as a parameter.  This
    instance only serves to run the code on examples: it lower-cases the
    ASCII letters and writes a hyphen for a space, as in the spec's
    scenario, where the label Users gets the slug users. *)
Fixpoint slugify_ascii (s : string) : string :=
  match s with
  | EmptyString => EmptyString
  | String c rest =>
      let n := Ascii.nat_of_ascii c in
      let c' :=
        if Nat.eqb n 32 then Ascii.ascii_of_nat 45
        else if andb (Nat.leb 65 n) (Nat.leb n 90)
             then Ascii.ascii_of_nat (n + 32)
             else c in
      String c' (slugify_ascii rest)
  end.

(** A metric type whose samples are always 5. *)
Definition constant_5 : MetricType := mkMetricType (fun _ _ => Returned 5).

Definition empty_storage : Storage := mkStorage [] [] 1 1.

Definition fresh_world : World :=
  mkWorld (mkMetricManager ∅) empty_storage (fun n => 1000 + Z.of_nat n) 0.

(** After [register_metric_type("constant_5", constant_5)]. *)
Definition world_registered : World :=
  world_after (register_metric_type "constant_5" constant_5) fresh_world.

(** After [create_metric("constant_5", label="Users")] on top of that. *)
Definition world_users : World :=
  world_after (create_metric slugify_ascii "constant_5" "Users" None None ∅)
              world_registered.

Definition metric_users : Metric :=
  created_metric "constant_5" "Users" "users" None ∅ world_registered.

(** Two collectible metrics: the first one's type label was never
    registered, the second one is [metric_users] with primary key 2. *)
Definition metric_orphan : Metric :=
  mkMetric 1 "gone" ∅ "orphan" "Orphan" None "" "" true.

Definition metric_second : Metric :=
  mkMetric 2 "constant_5" ∅ "users" "Users" None "" "" true.

Definition world_orphan_first : World :=
  mkWorld (mkMetricManager {[ "constant_5" := constant_5 ]})
          (mkStorage [metric_orphan; metric_second] [] 3 1)
          (fun n => 1000 + Z.of_nat n) 0.

(** [world_users] after two runs of [collect_metrics]. *)
Definition world_collected_twice : World :=
  world_after (collect_metrics ;;; collect_metrics) world_users.

(** ** Invariants of the tables and more worlds *)

(** [MetricManager.__init__]: [self._registry = {}]. *)
Definition MetricManager_init : MetricManager := mkMetricManager ∅.

(** No two rows of the [Metric] table carry the same slug, which is what
    [unique=True] on the field is there to keep. *)
Definition slugs_unique (db : Storage) : Prop :=
  List.NoDup (map slug (Metric_objects db)).

(** Primary keys of the [DatumSample] table are unique and were all handed
    out by its sequence. *)
Definition samples_ok (db : Storage) : Prop :=
  List.NoDup (map sample_pk (DatumSample_objects db)) /\
  Forall (fun s => (sample_pk s < DatumSample_next_pk db)%nat)
         (DatumSample_objects db).

(** Every sample's foreign key is a primary key the [Metric] sequence has
    handed out. *)
Definition samples_fk_ok (db : Storage) : Prop :=
  Forall (fun s => (metric s < Metric_next_pk db)%nat)
         (DatumSample_objects db).

(** A metric type whose source cannot be reached. *)
Definition failing_type : MetricType :=
  mkMetricType (fun _ _ => Raised (PluginError "source is down")).

(** A manager straight out of [__init__], on an empty storage. *)
Definition world_init : World :=
  mkWorld MetricManager_init empty_storage (fun n => 1000 + Z.of_nat n) 0.

(** [world_users] after one run of [collect_metrics]. *)
Definition world_collected_once : World :=
  world_after collect_metrics world_users.

(** One metric whose type always raises, behind the Users metric. *)
Definition metric_down : Metric :=
  mkMetric 2 "down" ∅ "down" "Down" None "" "" true.

Definition world_down : World :=
  mkWorld (mkMetricManager
             (<[ "down" := failing_type ]> {[ "constant_5" := constant_5 ]}))
          (mkStorage [metric_users; metric_down] [] 3 1)
          (fun n => 1000 + Z.of_nat n) 0.

(** The Users metric with one sample, under a wall clock that was set back
    after the sample was taken. *)
Definition world_clock_set_back : World :=
  mkWorld (mkMetricManager {[ "constant_5" := constant_5 ]})
          (mkStorage [metric_users] [mkDatumSample 1 1 1000 5] 2 2)
          (fun n => 900 + Z.of_nat n) 0.

(** A paused metric only. *)
Definition metric_paused : Metric :=
  mkMetric 1 "gone" ∅ "paused" "Paused" None "" "" false.

Definition world_paused : World :=
  mkWorld MetricManager_init (mkStorage [metric_paused] [] 2 1)
          (fun n => 1000 + Z.of_nat n) 0.

(** Three tables to run the collection on.  [world_mixed]: two
    collectible metrics of a registered type around a paused one.
    [world_orphan_middle]: a collectible metric whose type label is not
    registered, between two that resolve, and a paused metric at the
    end. *)
Definition metric_paused_2 : Metric :=
  mkMetric 2 "gone" ∅ "paused" "Paused" None "" "" false.

Definition metric_orphan_2 : Metric :=
  mkMetric 2 "gone" ∅ "orphan" "Orphan" None "" "" true.

Definition metric_third : Metric :=
  mkMetric 3 "constant_5" ∅ "third" "Third" None "" "" true.

Definition metric_paused_4 : Metric :=
  mkMetric 4 "constant_5" ∅ "paused" "Paused" None "" "" false.

Definition world_mixed : World :=
  mkWorld (mkMetricManager {[ "constant_5" := constant_5 ]})
          (mkStorage [metric_users; metric_paused_2; metric_third] [] 4 1)
          (fun n => 1000 + Z.of_nat n) 0.

Definition world_orphan_middle : World :=
  mkWorld (mkMetricManager {[ "constant_5" := constant_5 ]})
          (mkStorage [metric_users; metric_orphan_2; metric_third;
                      metric_paused_4] [] 5 1)
          (fun n => 1000 + Z.of_nat n) 0.

(** A metric type that gathers an integer one past the largest the column
    holds. *)
Definition too_big : MetricType := mkMetricType (fun _ _ => Returned (2 ^ 63)).

Definition world_too_big : World :=
  mkWorld (mkMetricManager {[ "constant_5" := too_big ]})
          (mkStorage [metric_users] [] 2 1)
          (fun n => 1000 + Z.of_nat n) 0.

(** What a run of the collection loop that got through the metrics
    [done] has made of world [w]: the rows [added], one per metric and in
    their order, stamped with successive readings of the clock and keyed
    by successive values of the sequence; everything else as it was. *)
Definition collected_rows (w w' : World) (done : list Metric)
    (added : list DatumSample) : Prop :=
  manager w' = manager w /\
  utc_clock w' = utc_clock w /\
  Metric_objects (storage w') = Metric_objects (storage w) /\
  Metric_next_pk (storage w') = Metric_next_pk (storage w) /\
  DatumSample_objects (storage w') =
    (DatumSample_objects (storage w) ++ added)%list /\
  map metric added = map metric_pk done /\
  map utc_timestamp added =
    map (utc_clock w) (seq (utc_reads w) (length done)) /\
  map sample_pk added =
    seq (DatumSample_next_pk (storage w)) (length done) /\
  utc_reads w' = (utc_reads w + length done)%nat /\
  DatumSample_next_pk (storage w') =
    (DatumSample_next_pk (storage w) + length done)%nat.

(** * Theorems *)

(** ** The monad *)

Lemma bind_returned {A B} (c : M A) (k : A -> M B) w a w' :
  c w = (Returned a, w') -> bind c k w = k a w'.
Proof. intros H. unfold bind. now rewrite H. Qed.

Lemma bind_raised {A B} (c : M A) (k : A -> M B) w e w' :
  c w = (Raised e, w') -> bind c k w = (Raised e, w').
Proof. intros H. unfold bind. now rewrite H. Qed.

(** ** The registry *)

Lemma get_metric_type_eq label w :
  get_metric_type label w = (Returned (registry_of w !! label), w).
Proof. reflexivity. Qed.

Lemma register_metric_type_eq label mt w :
  register_metric_type label mt w =
  (Returned tt,
   mkWorld (mkMetricManager (<[label := mt]> (registry_of w)))
           (storage w) (utc_clock w) (utc_reads w)).
Proof. reflexivity. Qed.

Lemma unregister_metric_type_registry label w :
  registry_of (world_after (unregister_metric_type label) w) =
  delete label (registry_of w).
Proof.
  unfold world_after, unregister_metric_type, bind, registry_of; simpl.
  destruct (_registry (manager w) !! label) eqn:E; simpl.
  - reflexivity.
  - symmetry. now apply delete_id.
Qed.

(** C7. After [register_metric_type(label, metric_type)] the lookup
    [get_metric_type(label)] returns that metric type, the one registered
    last when the label was registered before; after
    [unregister_metric_type(label)], whether it removed the entry or
    raised [KeyError] because there was none, [get_metric_type(label)]
    returns [None]. *)
Theorem register_then_resolve_unregister_then_absent
    (w : World) (label : string) (first last_ : MetricType) :
  let w1 := world_after (register_metric_type label last_) w in
  let w2 :=
    world_after (register_metric_type label first ;;;
                 register_metric_type label last_) w in
  let w3 := world_after (unregister_metric_type label) w in
  result (get_metric_type label) w1 = Returned (Some last_) /\
  result (get_metric_type label) w2 = Returned (Some last_) /\
  result (get_metric_type label) w3 = Returned None.
Proof.
  cbn zeta. repeat split.
  - unfold result. rewrite get_metric_type_eq. cbn.
    now rewrite lookup_insert_eq.
  - unfold result. rewrite get_metric_type_eq. cbn.
    now rewrite lookup_insert_eq.
  - unfold result. rewrite get_metric_type_eq. cbn [fst].
    rewrite unregister_metric_type_registry.
    now rewrite lookup_delete_eq.
Qed.

(** C8. [get_metric_type] of a label that is not in the registry returns
    [None] and raises nothing, and [get_metric_type] of any label leaves
    the world, the registry in particular, as it found it. *)
Theorem resolve_missing_is_absent_and_pure (w : World) (label : string) :
  (registry_of w !! label = None ->
   result (get_metric_type label) w = Returned None) /\
  world_after (get_metric_type label) w = w /\
  registry_of (world_after (get_metric_type label) w) = registry_of w.
Proof.
  unfold result, world_after. rewrite get_metric_type_eq. cbn.
  repeat split. now intros ->.
Qed.

Lemma resolve_missing_is_absent_and_pure_witness :
  registry_of world_registered !! "gone" = None /\
  result (get_metric_type "gone") world_registered = Returned None.
Proof.
  split.
  - reflexivity.
  - apply (resolve_missing_is_absent_and_pure world_registered "gone").
    reflexivity.
Defined.

(** ** Creating a metric *)

Lemma kwargs_or_empty (kwargs : gmap string PyValue) :
  (if Nat.eqb (size kwargs) 0 then ∅ else kwargs) = kwargs.
Proof.
  destruct (Nat.eqb (size kwargs) 0) eqn:E; [|reflexivity].
  apply Nat.eqb_eq in E. symmetry. now apply map_size_empty_iff.
Qed.

Lemma slug_default_eq (slugify : string -> string) (lbl : string)
    (slug : option string) :
  truthy_str slug = false ->
  match slug with
  | Some s => if truthy_str slug then s else slugify lbl
  | None => slugify lbl
  end = slugify lbl.
Proof. intros H. destruct slug; [now rewrite H | reflexivity]. Qed.

Lemma Metric_objects_create_eq tl lbl s descr props w :
  Metric_objects_create tl lbl s descr props w =
  if slug_taken s (storage w)
  then (Raised (IntegrityError "column slug is not unique"), w)
  else (Returned (created_metric tl lbl s descr props w),
        world_with_metric (created_metric tl lbl s descr props w) w).
Proof.
  unfold Metric_objects_create, bind; cbn.
  destruct (slug_taken s (storage w)); reflexivity.
Qed.

Lemma create_metric_registered slugify tl lbl slug descr kwargs w cls :
  registry_of w !! tl = Some cls ->
  truthy_str slug = false ->
  create_metric slugify tl lbl slug descr kwargs w =
  Metric_objects_create tl lbl (slugify lbl) descr kwargs w.
Proof.
  intros Hreg Hslug. unfold create_metric.
  rewrite (bind_returned _ _ w (Some cls) w)
    by (rewrite get_metric_type_eq; now rewrite Hreg).
  rewrite slug_default_eq by assumption. now rewrite kwargs_or_empty.
Qed.

(** C4. [create_metric] with a type label that is not registered raises
    the exception saying that no metric type exists with that label, and
    leaves the world as it was: no [Metric] row is written. *)
Theorem create_metric_unregistered_raises
    (slugify : string -> string) (w : World) (tl lbl : string)
    (slug descr : option string) (kwargs : gmap string PyValue) :
  registry_of w !! tl = None ->
  create_metric slugify tl lbl slug descr kwargs w =
  (Raised (Exception ("MetricType doesn't exist with label " ++ tl)), w).
Proof.
  intros Hreg. unfold create_metric.
  rewrite (bind_returned _ _ w None w)
    by (rewrite get_metric_type_eq; now rewrite Hreg).
  reflexivity.
Qed.

Lemma create_metric_unregistered_raises_witness :
  create_metric slugify_ascii "gone" "Users" None None ∅ world_registered =
  (Raised (Exception "MetricType doesn't exist with label gone"),
   world_registered).
Proof.
  apply (create_metric_unregistered_raises
           slugify_ascii world_registered "gone" "Users" None None ∅).
  reflexivity.
Defined.

(** C5, as the specification states it, fails: the type label being
    registered is not enough for [create_metric] to persist a metric,
    since the insert is refused when a metric already has the derived
    slug.  Creating the Users metric a second time raises. *)
Lemma create_metric_same_label_twice_refused :
  ~ (forall (slugify : string -> string) (w : World) (tl lbl : string)
            (descr : option string) (kwargs : gmap string PyValue),
       is_Some (registry_of w !! tl) ->
       exists m w',
         create_metric slugify tl lbl None descr kwargs w = (Returned m, w') /\
         In m (Metric_objects (storage w')) /\
         slug m = slugify lbl /\
         metric_properties m = kwargs).
Proof.
  intros H.
  destruct (H slugify_ascii world_users "constant_5" "Users" None ∅)
    as (m & w' & Hrun & _).
  - exists constant_5. reflexivity.
  - vm_compute in Hrun. discriminate Hrun.
Qed.

(** C5, amended.  For a registered type label, [create_metric] called
    without a slug derives the slug from the label by [slugify].  When no
    stored metric has that slug, it persists a metric with that slug and
    with the keyword arguments as its [metric_properties] (the empty
    mapping when there are none); when one has, it raises
    [IntegrityError] and persists nothing. *)
Theorem create_metric_derives_slug_and_properties
    (slugify : string -> string) (w : World) (tl lbl : string)
    (descr : option string) (kwargs : gmap string PyValue) :
  is_Some (registry_of w !! tl) ->
  (slug_taken (slugify lbl) (storage w) = false ->
   exists m,
     create_metric slugify tl lbl None descr kwargs w =
       (Returned m, world_with_metric m w) /\
     In m (Metric_objects (storage (world_with_metric m w))) /\
     slug m = slugify lbl /\
     metric_properties m = kwargs /\
     (size kwargs = 0%nat -> metric_properties m = ∅)) /\
  (slug_taken (slugify lbl) (storage w) = true ->
   create_metric slugify tl lbl None descr kwargs w =
     (Raised (IntegrityError "column slug is not unique"), w)).
Proof.
  intros [cls Hreg].
  rewrite (create_metric_registered slugify tl lbl None descr kwargs w cls)
    by (assumption || reflexivity).
  rewrite Metric_objects_create_eq. split; intros Htaken; rewrite Htaken.
  - exists (created_metric tl lbl (slugify lbl) descr kwargs w).
    repeat split.
    + cbn. apply in_or_app. right. now left.
    + cbn. intros H0. now apply map_size_empty_iff.
  - reflexivity.
Qed.

Example slugify_ascii_users : slugify_ascii "Users" = "users".
Proof. reflexivity. Qed.

Lemma create_metric_derives_slug_and_properties_witness :
  exists m,
    create_metric slugify_ascii "constant_5" "Users" None None ∅
                  world_registered =
      (Returned m, world_with_metric m world_registered) /\
    slug m = "users" /\
    metric_properties m = ∅.
Proof.
  destruct (create_metric_derives_slug_and_properties
              slugify_ascii world_registered "constant_5" "Users" None ∅)
    as [Hfree _].
  - exists constant_5. reflexivity.
  - destruct (Hfree eq_refl) as (m & Hrun & _ & Hslug & Hprops & _).
    exists m. repeat split; assumption.
Defined.

(** ** Collecting one metric *)

Lemma collect_metric_eq (self : Metric) (w : World) :
  collect_metric self w =
  match registry_of w !! metric_type_label self with
  | None => (Raised (TypeError "'NoneType' object is not callable"), w)
  | Some cls =>
      match gather_data_sample cls (storage w) self with
      | Returned v =>
          if bigint_ok v
          then (Returned tt, world_with_sample (collected_sample self v w) w)
          else
            (Raised (OverflowError
                       "Python int too large to convert to SQLite INTEGER"),
             world_clock_read w)
      | Raised e => (Raised e, w)
      end
  end.
Proof.
  unfold collect_metric, bind, registry_of; cbn.
  destruct (_registry (manager w) !! metric_type_label self) as [cls|]; cbn;
    [|reflexivity].
  unfold call_gather_data_sample, bind; cbn.
  destruct (gather_data_sample cls (storage w) self) as [v|e]; cbn;
    [|reflexivity].
  unfold DatumSample_objects_create, bind; cbn.
  destruct (bigint_ok v); reflexivity.
Qed.

(** C2. For a metric whose type label is registered, a call of
    [collect_metric] that returns normally has appended exactly one row to
    the [DatumSample] table and changed nothing else in the storage: the
    row belongs to the metric, its [value] is the integer the strategy's
    [gather_data_sample] returned and its [utc_timestamp] is what
    [utcnow()] read.  The call returns normally when the strategy returns
    an integer that fits the 64-bit column, and only then. *)
Theorem collect_metric_persists_one_sample
    (self : Metric) (w : World) (cls : MetricType) :
  registry_of w !! metric_type_label self = Some cls ->
  (forall v,
     gather_data_sample cls (storage w) self = Returned v ->
     bigint_ok v = true ->
     exists w', collect_metric self w = (Returned tt, w')) /\
  (forall w',
     collect_metric self w = (Returned tt, w') ->
     exists v row,
       gather_data_sample cls (storage w) self = Returned v /\
       bigint_ok v = true /\
       DatumSample_objects (storage w') =
         (DatumSample_objects (storage w) ++ [row])%list /\
       metric row = metric_pk self /\
       value row = v /\
       result utcnow w = Returned (utc_timestamp row) /\
       Metric_objects (storage w') = Metric_objects (storage w) /\
       manager w' = manager w).
Proof.
  intros Hreg. rewrite collect_metric_eq, Hreg. split.
  - intros v -> ->. eauto.
  - intros w' Hrun.
    destruct (gather_data_sample cls (storage w) self) as [v|e];
      [|discriminate Hrun].
    destruct (bigint_ok v) eqn:Hfits; [|discriminate Hrun].
    injection Hrun as <-.
    exists v, (collected_sample self v w). repeat split. exact Hfits.
Qed.

Lemma collect_metric_persists_one_sample_witness :
  (exists w', collect_metric metric_users world_users = (Returned tt, w')) /\
  exists v row,
    gather_data_sample constant_5 (storage world_users) metric_users =
      Returned v /\
    DatumSample_objects
      (storage (world_after (collect_metric metric_users) world_users)) =
      (DatumSample_objects (storage world_users) ++ [row])%list /\
    value row = 5.
Proof.
  destruct (collect_metric_persists_one_sample
              metric_users world_users constant_5 eq_refl) as [Hret Hrun].
  split.
  - apply (Hret 5); reflexivity.
  - destruct (Hrun (world_after (collect_metric metric_users) world_users)
                   eq_refl)
      as (v & row & Hv & _ & Hrows & _ & Hval & _).
    exists v, row. repeat split; try assumption.
    rewrite Hval. cbn in Hv. congruence.
Defined.

(** ** The latest sample *)

#[global] Instance newest_first_trans : Transitive newest_first.
Proof. intros a b c. unfold newest_first. lia. Qed.

#[global] Instance newest_first_total : Total newest_first.
Proof. intros a b. unfold newest_first. lia. Qed.

Lemma get_latest_sample_eq (self : Metric) (w : World) :
  get_latest_sample self w =
  match merge_sort newest_first (samples_of self (storage w)) with
  | s :: _ => (Returned s, w)
  | [] => (Raised (IndexError "list index out of range"), w)
  end.
Proof.
  unfold get_latest_sample, bind; cbn.
  destruct (merge_sort newest_first (samples_of self (storage w)));
    reflexivity.
Qed.

Lemma samples_of_spec (self : Metric) (db : Storage) (s : DatumSample) :
  In s (samples_of self db) <->
  In s (DatumSample_objects db) /\ metric s = metric_pk self.
Proof.
  unfold samples_of. rewrite filter_In. now rewrite Nat.eqb_eq.
Qed.

(** C3. For a metric with at least one sample, [get_latest_sample]
    returns a sample of that metric, and no sample of that metric has a
    later [utc_timestamp]. *)
Theorem get_latest_sample_is_newest (self : Metric) (w : World) :
  samples_of self (storage w) <> [] ->
  exists s,
    get_latest_sample self w = (Returned s, w) /\
    In s (DatumSample_objects (storage w)) /\
    metric s = metric_pk self /\
    forall s',
      In s' (DatumSample_objects (storage w)) ->
      metric s' = metric_pk self ->
      utc_timestamp s' <= utc_timestamp s.
Proof.
  intros Hne. rewrite get_latest_sample_eq.
  pose proof (merge_sort_Permutation newest_first
                (samples_of self (storage w))) as Hperm.
  pose proof (StronglySorted_merge_sort newest_first
                (samples_of self (storage w))) as Hsorted.
  destruct (merge_sort newest_first (samples_of self (storage w)))
    as [|s rest].
  - apply Permutation_nil in Hperm. contradiction.
  - exists s. split; [reflexivity|].
    assert (Hin : In s (samples_of self (storage w))).
    { eapply Permutation_in; [exact Hperm | now left]. }
    apply samples_of_spec in Hin. destruct Hin as [Hin Hfk].
    repeat split; try assumption.
    intros s' Hin' Hfk'.
    assert (Hs' : In s' (s :: rest)).
    { eapply Permutation_in; [symmetry; exact Hperm |].
      apply samples_of_spec. now split. }
    apply StronglySorted_inv in Hsorted. destruct Hsorted as [_ Hall].
    destruct Hs' as [<- | Hrest]; [lia|].
    rewrite Forall_forall in Hall.
    assert (Hnewer : newest_first s s')
      by (apply Hall; now apply list_elem_of_In).
    unfold newest_first in Hnewer. lia.
Qed.

(** C10. For a metric without samples, [get_latest_sample] raises
    [IndexError], the error of indexing an empty list; it does not return
    [None]. *)
Theorem get_latest_sample_without_samples_raises (self : Metric) (w : World) :
  samples_of self (storage w) = [] ->
  get_latest_sample self w =
  (Raised (IndexError "list index out of range"), w).
Proof. intros H. rewrite get_latest_sample_eq, H. reflexivity. Qed.

Lemma get_latest_sample_without_samples_raises_witness :
  get_latest_sample metric_users world_users =
  (Raised (IndexError "list index out of range"), world_users).
Proof.
  apply (get_latest_sample_without_samples_raises metric_users world_users).
  reflexivity.
Defined.

Lemma get_latest_sample_is_newest_witness :
  exists s,
    get_latest_sample metric_users world_collected_twice =
      (Returned s, world_collected_twice) /\
    utc_timestamp s = 1001 /\ value s = 5.
Proof.
  destruct (get_latest_sample_is_newest metric_users world_collected_twice)
    as (s & Hrun & _).
  - vm_compute. discriminate.
  - exists s. split; [exact Hrun|].
    vm_compute in Hrun. injection Hrun as <-. split; reflexivity.
Defined.

(** ** The collection loop *)

Lemma for_each_cons {A} (x : A) (xs : list A) (body : A -> M unit) w :
  for_each (x :: xs) body w =
  match body x w with
  | (Returned _, w1) => for_each xs body w1
  | (Raised e, w1) => (Raised e, w1)
  end.
Proof. reflexivity. Qed.

(** What one pass of the loop body does to the world. *)
Lemma collect_metric_step (self : Metric) (w : World) r w' :
  collect_metric self w = (r, w') ->
  (exists row,
     r = Returned tt /\ metric row = metric_pk self /\
     w' = world_with_sample row w) \/
  (exists e, r = Raised e /\ (w' = w \/ w' = world_clock_read w)).
Proof.
  rewrite collect_metric_eq.
  destruct (registry_of w !! metric_type_label self) as [cls|].
  - destruct (gather_data_sample cls (storage w) self) as [v|e].
    + destruct (bigint_ok v); intros [= <- <-].
      * left. exists (collected_sample self v w). repeat split.
      * right. eauto.
    + intros [= <- <-]. right. eauto.
  - intros [= <- <-]. right. eauto.
Qed.

(** A call that raised wrote nothing and left the manager alone. *)
Lemma collect_metric_raised_frame (self : Metric) (w : World) e w' :
  collect_metric self w = (Raised e, w') ->
  storage w' = storage w /\ manager w' = manager w.
Proof.
  intros Hrun. apply collect_metric_step in Hrun.
  destruct Hrun as [(row & Hr & _) | (e' & _ & [-> | ->])];
    [discriminate Hr | tauto | tauto].
Qed.

(** A loop that returns has written one sample per metric, in order, and
    touched neither the manager nor the [Metric] table. *)
Lemma for_each_collect_returned (qs : list Metric) :
  forall w w',
    for_each qs collect_metric w = (Returned tt, w') ->
    manager w' = manager w /\
    Metric_objects (storage w') = Metric_objects (storage w) /\
    exists added,
      DatumSample_objects (storage w') =
        (DatumSample_objects (storage w) ++ added)%list /\
      map metric added = map metric_pk qs.
Proof.
  induction qs as [|x qs IH]; intros w w' Hrun.
  - injection Hrun as <-. repeat split. exists []. split; [|reflexivity].
    now rewrite app_nil_r.
  - rewrite for_each_cons in Hrun.
    destruct (collect_metric x w) as [r w1] eqn:Hx.
    apply collect_metric_step in Hx.
    destruct Hx as [(row & -> & Hfk & ->) | (e & -> & _)];
      [|discriminate Hrun].
    apply IH in Hrun. destruct Hrun as (Hm & Ht & added & Hs & Hfks).
    repeat split; try assumption.
    exists (row :: added). split.
    + rewrite Hs. cbn. now rewrite <- app_assoc.
    + cbn. now rewrite Hfk, Hfks.
Qed.

(** A loop that raises returned on a prefix of the metrics and raised on
    the metric after it. *)
Lemma for_each_collect_raised (qs : list Metric) :
  forall w e w',
    for_each qs collect_metric w = (Raised e, w') ->
    exists pre self post w1,
      qs = (pre ++ self :: post)%list /\
      for_each pre collect_metric w = (Returned tt, w1) /\
      collect_metric self w1 = (Raised e, w').
Proof.
  induction qs as [|x qs IH]; intros w e w' Hrun.
  - discriminate Hrun.
  - rewrite for_each_cons in Hrun.
    destruct (collect_metric x w) as [[[]|e'] w1] eqn:Hx.
    + apply IH in Hrun.
      destruct Hrun as (pre & self & post & w2 & -> & Hpre & Hself).
      exists (x :: pre), self, post, w2. repeat split; try assumption.
      rewrite for_each_cons, Hx. exact Hpre.
    + injection Hrun as <- <-. exists [], x, qs, w. repeat split. exact Hx.
Qed.

Lemma for_each_app {A} (xs ys : list A) (body : A -> M unit) :
  forall w,
    for_each (xs ++ ys) body w =
    match for_each xs body w with
    | (Returned _, w1) => for_each ys body w1
    | (Raised e, w1) => (Raised e, w1)
    end.
Proof.
  induction xs as [|x xs IH]; intros w; [reflexivity|].
  cbn [app]. rewrite !for_each_cons.
  destruct (body x w) as [[[]|e] w1]; [apply IH | reflexivity].
Qed.

(** ** Counting the samples of a metric *)

Lemma samples_of_app (m : Metric) (db db' : Storage) (added : list DatumSample) :
  DatumSample_objects db' = (DatumSample_objects db ++ added)%list ->
  samples_of m db' =
  (samples_of m db
   ++ List.filter (fun s => Nat.eqb (metric s) (metric_pk m)) added)%list.
Proof. intros H. unfold samples_of. rewrite H. apply List.filter_app. Qed.

Lemma filter_fk_absent (k : nat) (added : list DatumSample) :
  ~ In k (map metric added) ->
  List.filter (fun s => Nat.eqb (metric s) k) added = [].
Proof.
  induction added as [|s added IH]; intros Hnot; [reflexivity|].
  cbn in *. destruct (Nat.eqb_spec (metric s) k) as [Heq|Hne].
  - exfalso. apply Hnot. now left.
  - apply IH. intros Hin. apply Hnot. now right.
Qed.

Lemma filter_fk_once (k : nat) (added : list DatumSample) :
  List.NoDup (map metric added) ->
  In k (map metric added) ->
  exists s, List.filter (fun s => Nat.eqb (metric s) k) added = [s].
Proof.
  induction added as [|s added IH]; intros Hnd Hin; [destruct Hin|].
  cbn in *. apply NoDup_cons_iff in Hnd. destruct Hnd as [Hfresh Hnd].
  destruct (Nat.eqb_spec (metric s) k) as [Heq|Hne].
  - exists s. f_equal. apply filter_fk_absent. now rewrite <- Heq.
  - destruct Hin as [Heq|Hin]; [contradiction|]. now apply IH.
Qed.

Lemma NoDup_map_filter {A B} (f : A -> B) (p : A -> bool) (l : list A) :
  List.NoDup (map f l) -> List.NoDup (map f (List.filter p l)).
Proof.
  induction l as [|x l IH]; intros Hnd; [constructor|].
  cbn in *. apply NoDup_cons_iff in Hnd. destruct Hnd as [Hfresh Hnd].
  destruct (p x); [|now apply IH].
  cbn. constructor; [|now apply IH].
  intros Hin. apply Hfresh. apply in_map_iff in Hin.
  destruct Hin as (y & <- & Hy). apply in_map.
  apply filter_In in Hy. tauto.
Qed.

Lemma NoDup_map_inj_on {A B} (f : A -> B) (l : list A) (x y : A) :
  List.NoDup (map f l) -> In x l -> In y l -> f x = f y -> x = y.
Proof.
  induction l as [|a l IH]; intros Hnd Hx Hy Hf; [destruct Hx|].
  cbn in Hnd. apply NoDup_cons_iff in Hnd. destruct Hnd as [Hfresh Hnd].
  destruct Hx as [<-|Hx], Hy as [<-|Hy]; try reflexivity.
  - exfalso. apply Hfresh. rewrite Hf. now apply in_map.
  - exfalso. apply Hfresh. rewrite <- Hf. now apply in_map.
  - now apply IH.
Qed.

Lemma NoDup_app_disjoint {A} (l1 l2 : list A) (a : A) :
  List.NoDup (l1 ++ l2) -> In a l1 -> ~ In a l2.
Proof.
  induction l1 as [|x l1 IH]; intros Hnd Hin Hin2; [destruct Hin|].
  cbn in Hnd. apply NoDup_cons_iff in Hnd. destruct Hnd as [Hfresh Hnd].
  destruct Hin as [->|Hin].
  - apply Hfresh. apply in_or_app. now right.
  - now apply IH.
Qed.

(** A paused metric of a sound table shares its primary key with no
    collectible one. *)
Lemma paused_pk_not_collectible (db : Storage) (m : Metric) :
  pks_unique db ->
  In m (Metric_objects db) ->
  do_collect m = false ->
  ~ In (metric_pk m)
       (map metric_pk (List.filter do_collect (Metric_objects db))).
Proof.
  intros Hnd Hin Hpaused Hpk.
  apply in_map_iff in Hpk. destruct Hpk as (m' & Hpk & Hm').
  apply filter_In in Hm'. destruct Hm' as [Hin' Hon].
  assert (m' = m) by (eapply NoDup_map_inj_on; eassumption).
  subst m'. congruence.
Qed.

(** After a loop that returned on [pre]: one more sample for a metric
    whose key occurs in [pre], the same samples for one whose key does
    not. *)
Lemma samples_after_returned (pre : list Metric) (w w1 : World) (m : Metric) :
  for_each pre collect_metric w = (Returned tt, w1) ->
  List.NoDup (map metric_pk pre) ->
  (In (metric_pk m) (map metric_pk pre) ->
   exists s,
     samples_of m (storage w1) = (samples_of m (storage w) ++ [s])%list) /\
  (~ In (metric_pk m) (map metric_pk pre) ->
   samples_of m (storage w1) = samples_of m (storage w)).
Proof.
  intros Hrun Hnd.
  apply for_each_collect_returned in Hrun.
  destruct Hrun as (_ & _ & added & Hrows & Hfks).
  rewrite (samples_of_app m _ _ added Hrows). rewrite <- Hfks in *.
  split; intros Hk.
  - destruct (filter_fk_once (metric_pk m) added Hnd Hk) as [s ->]. eauto.
  - rewrite (filter_fk_absent (metric_pk m) added Hk). apply app_nil_r.
Qed.

Lemma collect_metrics_eq (w : World) :
  collect_metrics w =
  for_each (List.filter do_collect (Metric_objects (storage w)))
           collect_metric w.
Proof. reflexivity. Qed.

(** ** The collection workflow *)

(** C1, as the specification states it, fails: a collectible metric whose
    type label does not resolve makes [collect_metrics] raise where it
    stands, and the collectible metrics after it, though they resolve, get
    no sample. *)
Lemma collect_metrics_stops_at_unresolvable_metric :
  ~ (forall (w w' : World) (r : outcome unit),
       storage_ok (storage w) ->
       collect_metrics w = (r, w') ->
       forall m,
         In m (Metric_objects (storage w)) ->
         (do_collect m = true ->
          is_Some (registry_of w !! metric_type_label m) ->
          length (samples_of m (storage w')) =
            S (length (samples_of m (storage w)))) /\
         (do_collect m = false ->
          samples_of m (storage w') = samples_of m (storage w))).
Proof.
  intros H.
  destruct (H world_orphan_first
              (world_after collect_metrics world_orphan_first)
              (result collect_metrics world_orphan_first))
    with (m := metric_second) as [Hone _].
  - split.
    + cbn. repeat constructor; cbn; intuition discriminate.
    + cbn. repeat constructor.
  - reflexivity.
  - cbn. tauto.
  - assert (Hreg : is_Some (registry_of world_orphan_first
                               !! metric_type_label metric_second))
      by (exists constant_5; reflexivity).
    specialize (Hone eq_refl Hreg). vm_compute in Hone. discriminate Hone.
Qed.

Lemma storage_ok_world_users : storage_ok (storage world_users).
Proof.
  split; cbn.
  - repeat constructor. intros [].
  - repeat constructor.
Qed.

Lemma storage_ok_world_orphan_first : storage_ok (storage world_orphan_first).
Proof.
  split; cbn.
  - repeat constructor; cbn; intuition discriminate.
  - repeat constructor.
Qed.

(** A raising run stored what its prefix stored. *)
Lemma samples_after_raised (qs : list Metric) (w w' : World) (e : exn) :
  for_each qs collect_metric w = (Raised e, w') ->
  exists pre self post w1,
    qs = (pre ++ self :: post)%list /\
    for_each pre collect_metric w = (Returned tt, w1) /\
    collect_metric self w1 = (Raised e, w') /\
    storage w' = storage w1 /\
    manager w' = manager w.
Proof.
  intros Hrun. apply for_each_collect_raised in Hrun.
  destruct Hrun as (pre & self & post & w1 & Hqs & Hpre & Hself).
  exists pre, self, post, w1. repeat split; try assumption.
  - now apply collect_metric_raised_frame in Hself.
  - apply collect_metric_raised_frame in Hself.
    apply for_each_collect_returned in Hpre. destruct Hself, Hpre. congruence.
Qed.

(** C1, amended.  Whenever [collect_metrics] returns normally, every
    metric with [do_collect = true] has exactly one more sample than
    before the call; and however it ends, every metric with
    [do_collect = false] has the samples it had before.  (The primary keys
    of the [Metric] table are unique.) *)
Theorem collect_metrics_one_more_sample_each (w : World) :
  pks_unique (storage w) ->
  (forall w',
     collect_metrics w = (Returned tt, w') ->
     forall m,
       In m (Metric_objects (storage w)) -> do_collect m = true ->
       exists s,
         samples_of m (storage w') =
           (samples_of m (storage w) ++ [s])%list) /\
  (forall r w',
     collect_metrics w = (r, w') ->
     forall m,
       In m (Metric_objects (storage w)) -> do_collect m = false ->
       samples_of m (storage w') = samples_of m (storage w)).
Proof.
  intros Hok. rewrite collect_metrics_eq.
  pose proof (NoDup_map_filter metric_pk do_collect _ Hok) as Hnd.
  split.
  - intros w' Hrun m Hin Hon.
    apply (samples_after_returned _ _ _ m Hrun Hnd).
    apply in_map. apply filter_In. now split.
  - intros r w' Hrun m Hin Hoff.
    pose proof (paused_pk_not_collectible _ m Hok Hin Hoff) as Hnot.
    destruct r as [[]|e].
    + now apply (samples_after_returned _ _ _ m Hrun Hnd).
    + apply samples_after_raised in Hrun.
      destruct Hrun as (pre & self & post & w1 & Hqs & Hpre & _ & Hdb & _).
      rewrite Hqs, map_app in Hnd, Hnot. rewrite Hdb.
      apply (samples_after_returned _ _ _ m Hpre).
      * now apply NoDup_app_remove_r in Hnd.
      * intros Hk. apply Hnot. apply in_or_app. now left.
Qed.

Lemma pks_unique_world_mixed : pks_unique (storage world_mixed).
Proof. cbn. repeat constructor; cbn; intuition discriminate. Qed.

Lemma pks_unique_world_orphan_middle :
  pks_unique (storage world_orphan_middle).
Proof. cbn. repeat constructor; cbn; intuition discriminate. Qed.

Lemma collect_metrics_one_more_sample_each_witness :
  (exists w' s1 s3,
     collect_metrics world_mixed = (Returned tt, w') /\
     samples_of metric_users (storage w') =
       (samples_of metric_users (storage world_mixed) ++ [s1])%list /\
     samples_of metric_third (storage w') =
       (samples_of metric_third (storage world_mixed) ++ [s3])%list /\
     samples_of metric_paused_2 (storage w') =
       samples_of metric_paused_2 (storage world_mixed)) /\
  (exists e w',
     collect_metrics world_orphan_middle = (Raised e, w') /\
     samples_of metric_paused_4 (storage w') =
       samples_of metric_paused_4 (storage world_orphan_middle)).
Proof.
  split.
  - destruct (collect_metrics_one_more_sample_each
                world_mixed pks_unique_world_mixed) as [Hone Hsame].
    set (w' := world_after collect_metrics world_mixed).
    assert (Hrun : collect_metrics world_mixed = (Returned tt, w'))
      by reflexivity.
    destruct (Hone w' Hrun metric_users) as [s1 Hs1];
      [cbn; tauto | reflexivity |].
    destruct (Hone w' Hrun metric_third) as [s3 Hs3];
      [cbn; tauto | reflexivity |].
    exists w', s1, s3.
    split; [exact Hrun|]. split; [exact Hs1|]. split; [exact Hs3|].
    apply (Hsame (Returned tt) w' Hrun metric_paused_2);
      [cbn; tauto | reflexivity].
  - destruct (collect_metrics_one_more_sample_each
                world_orphan_middle pks_unique_world_orphan_middle)
      as [_ Hsame].
    exists (TypeError "'NoneType' object is not callable"),
           (world_after collect_metrics world_orphan_middle).
    split; [reflexivity|].
    apply (Hsame (Raised (TypeError "'NoneType' object is not callable"))).
    + reflexivity.
    + cbn. tauto.
    + reflexivity.
Defined.

(** C6, as the specification states it, fails inside the collection run:
    the failure of a metric whose type label is not registered is not kept
    to that metric.  With such a metric first in the table, the metric
    after it, whose strategy is registered and never raises, gets no
    sample from [collect_metrics]. *)
Lemma unresolvable_metric_failure_not_isolated :
  ~ (forall (w : World) (self other : Metric),
       storage_ok (storage w) ->
       In self (Metric_objects (storage w)) ->
       In other (Metric_objects (storage w)) ->
       do_collect self = true ->
       do_collect other = true ->
       registry_of w !! metric_type_label self = None ->
       (exists cls,
          registry_of w !! metric_type_label other = Some cls /\
          forall db, exists v, gather_data_sample cls db other = Returned v) ->
       (exists e, result (collect_metric self) w = Raised e) /\
       exists s,
         samples_of other (storage (world_after collect_metrics w)) =
           (samples_of other (storage w) ++ [s])%list).
Proof.
  intros H.
  destruct (H world_orphan_first metric_orphan metric_second)
    as (_ & s & Hs).
  - exact storage_ok_world_orphan_first.
  - cbn. now left.
  - cbn. right. now left.
  - reflexivity.
  - reflexivity.
  - reflexivity.
  - exists constant_5. split; [reflexivity|]. intros db. now exists 5.
  - vm_compute in Hs. discriminate Hs.
Qed.

(** C6, amended.  [collect_metric] on a metric whose type label is not
    registered raises and writes nothing, for that metric or any other.
    Inside [collect_metrics] the exception is not kept to that metric: a
    run over a collectible metric with an unregistered type label always
    ends in an exception; that metric and every collectible metric after
    it have the samples they had before the run, and each collectible
    metric before it has the samples it had or exactly one more.  When the
    collectible metrics before it are all collected without an exception,
    the run ends with the exception of that metric and each of them has
    exactly one more sample.  (The primary keys of the [Metric] table are
    unique.) *)
Theorem collect_unregistered_raises_and_ends_run (w : World) (self : Metric) :
  registry_of w !! metric_type_label self = None ->
  (exists e, collect_metric self w = (Raised e, w)) /\
  (forall pre post,
     pks_unique (storage w) ->
     List.filter do_collect (Metric_objects (storage w)) =
       (pre ++ self :: post)%list ->
     exists e w',
       collect_metrics w = (Raised e, w') /\
       (forall m, In m (self :: post) ->
          samples_of m (storage w') = samples_of m (storage w)) /\
       (forall m, In m pre ->
          samples_of m (storage w') = samples_of m (storage w) \/
          exists s,
            samples_of m (storage w') =
              (samples_of m (storage w) ++ [s])%list) /\
       (forall w1,
          for_each pre collect_metric w = (Returned tt, w1) ->
          w' = w1 /\
          collect_metric self w1 = (Raised e, w1) /\
          forall m, In m pre ->
            exists s,
              samples_of m (storage w') =
                (samples_of m (storage w) ++ [s])%list)).
Proof.
  intros Hreg. split.
  - eexists. now rewrite collect_metric_eq, Hreg.
  - intros pre post Hok Hqs.
    pose proof (NoDup_map_filter metric_pk do_collect _ Hok) as Hnd.
    rewrite Hqs, map_app in Hnd.
    pose proof (NoDup_app_remove_r _ _ Hnd) as Hnd_pre.
    rewrite collect_metrics_eq, Hqs, for_each_app.
    destruct (for_each pre collect_metric w) as [[[]|e0] w1] eqn:Hpre.
    + assert (Hself : collect_metric self w1 =
                      (Raised (TypeError "'NoneType' object is not callable"),
                       w1)).
      { rewrite collect_metric_eq.
        destruct (for_each_collect_returned _ _ _ Hpre) as (Hmgr & _).
        unfold registry_of in *. now rewrite Hmgr, Hreg. }
      rewrite for_each_cons, Hself.
      exists (TypeError "'NoneType' object is not callable"), w1.
      assert (Hone : forall m, In m pre ->
                exists s, samples_of m (storage w1) =
                          (samples_of m (storage w) ++ [s])%list).
      { intros m Hm.
        apply (samples_after_returned _ _ _ m Hpre Hnd_pre).
        now apply in_map. }
      split; [reflexivity|]. split; [|split].
      * intros m Hm.
        apply (samples_after_returned _ _ _ m Hpre Hnd_pre).
        intros Hk. apply (NoDup_app_disjoint _ _ (metric_pk m) Hnd Hk).
        now apply (in_map metric_pk) in Hm.
      * intros m Hm. right. now apply Hone.
      * intros w2 [= <-]. auto.
    + exists e0, w1. split; [reflexivity|].
      apply samples_after_raised in Hpre.
      destruct Hpre as (p1 & x & p2 & w0 & Hsplit & Hp1 & _ & Hdb & _).
      rewrite Hdb.
      assert (Hnd_p1 : List.NoDup (map metric_pk p1)).
      { rewrite Hsplit, map_app in Hnd_pre.
        now apply NoDup_app_remove_r in Hnd_pre. }
      split; [|split].
      * intros m Hm.
        apply (samples_after_returned _ _ _ m Hp1 Hnd_p1).
        intros Hk. apply (NoDup_app_disjoint _ _ (metric_pk m) Hnd).
        -- rewrite Hsplit, map_app. apply in_or_app. now left.
        -- now apply (in_map metric_pk) in Hm.
      * intros m Hm.
        destruct (in_dec Nat.eq_dec (metric_pk m) (map metric_pk p1))
          as [Hk|Hk].
        -- right. now apply (samples_after_returned _ _ _ m Hp1 Hnd_p1).
        -- left. now apply (samples_after_returned _ _ _ m Hp1 Hnd_p1).
      * intros w2 Hw2. discriminate Hw2.
Qed.

Lemma collect_unregistered_raises_and_ends_run_witness :
  exists e w' s1,
    collect_metrics world_orphan_middle = (Raised e, w') /\
    collect_metric metric_orphan_2 w' = (Raised e, w') /\
    samples_of metric_users (storage w') =
      (samples_of metric_users (storage world_orphan_middle) ++ [s1])%list /\
    samples_of metric_orphan_2 (storage w') =
      samples_of metric_orphan_2 (storage world_orphan_middle) /\
    samples_of metric_third (storage w') =
      samples_of metric_third (storage world_orphan_middle).
Proof.
  destruct (collect_unregistered_raises_and_ends_run
              world_orphan_middle metric_orphan_2 eq_refl) as [_ Hrun].
  destruct (Hrun [metric_users] [metric_third]
                 pks_unique_world_orphan_middle eq_refl)
    as (e & w' & Hraise & Hafter & _ & Hfirst).
  destruct (Hfirst (world_after (collect_metric metric_users)
                                world_orphan_middle) eq_refl)
    as (Hw' & Hself & Hone).
  destruct (Hone metric_users (or_introl eq_refl)) as [s1 Hs1].
  exists e, w', s1.
  split; [exact Hraise|]. split; [|split; [exact Hs1|split]].
  - rewrite Hw'. exact Hself.
  - apply Hafter. now left.
  - apply Hafter. right. now left.
Defined.

(** ** A created metric is collected *)

Lemma create_metric_returned_inv slugify tl lbl slug descr kwargs w m w' :
  create_metric slugify tl lbl slug descr kwargs w = (Returned m, w') ->
  exists s,
    m = created_metric tl lbl s descr kwargs w /\
    w' = world_with_metric m w.
Proof.
  unfold create_metric, bind. rewrite get_metric_type_eq.
  destruct (registry_of w !! tl) as [cls|]; [|discriminate].
  rewrite Metric_objects_create_eq, kwargs_or_empty.
  match goal with
  | |- context [slug_taken ?s _] =>
      destruct (slug_taken s (storage w)); [discriminate|];
      intros [= <- <-]; now exists s
  end.
Qed.

(** Inserting a row under the next primary key keeps the table sound. *)
Lemma storage_ok_world_with_metric tl lbl s descr kwargs w :
  storage_ok (storage w) ->
  storage_ok
    (storage (world_with_metric (created_metric tl lbl s descr kwargs w) w)).
Proof.
  intros [Hnd Hlt]. split; cbn.
  - rewrite map_app. apply List.NoDup_app; [exact Hnd | repeat constructor; intros [] |].
    intros k Hk [<-|[]]. cbn in Hk.
    apply in_map_iff in Hk. destruct Hk as (m & Hpk & Hm).
    rewrite List.Forall_forall in Hlt. specialize (Hlt m Hm). lia.
  - apply List.Forall_app. split.
    + eapply List.Forall_impl; [|exact Hlt]. cbn. intros; lia.
    + repeat constructor.
Qed.

(** C9. A metric that [create_metric] returns has [do_collect = true] and
    is a row of the [Metric] table.  As long as the row stays in the table
    as it was created, it is one of the metrics [collect_metrics] iterates
    over, and a run that returns normally gives it one more sample; this
    holds in particular for the run that comes right after the creation. *)
Theorem created_metric_is_collected
    (slugify : string -> string) (w w' : World) (tl lbl : string)
    (slug descr : option string) (kwargs : gmap string PyValue) (m : Metric) :
  storage_ok (storage w) ->
  create_metric slugify tl lbl slug descr kwargs w = (Returned m, w') ->
  do_collect m = true /\
  In m (Metric_objects (storage w')) /\
  storage_ok (storage w') /\
  (forall w2,
     storage_ok (storage w2) ->
     In m (Metric_objects (storage w2)) ->
     (exists qs,
        Metric_objects_filter_do_collect w2 = (Returned qs, w2) /\
        In m qs) /\
     (forall w3,
        collect_metrics w2 = (Returned tt, w3) ->
        exists s,
          samples_of m (storage w3) =
            (samples_of m (storage w2) ++ [s])%list)).
Proof.
  intros Hok Hrun.
  apply create_metric_returned_inv in Hrun. destruct Hrun as (s & Hm & Hw').
  assert (Hon : do_collect m = true) by now rewrite Hm.
  split; [exact Hon|]. split; [|split].
  - rewrite Hw'. cbn. apply in_or_app. right. now left.
  - rewrite Hw', Hm. apply storage_ok_world_with_metric. exact Hok.
  - intros w2 Hok2 Hrow.
    assert (Hqs : In m (List.filter do_collect (Metric_objects (storage w2))))
      by (apply filter_In; now split).
    split.
    + eexists. split; [reflexivity | exact Hqs].
    + intros w3 Hcollect. rewrite collect_metrics_eq in Hcollect.
      apply (samples_after_returned _ _ _ m Hcollect).
      * apply NoDup_map_filter. exact (proj1 Hok2).
      * now apply in_map.
Qed.

Lemma storage_ok_world_registered : storage_ok (storage world_registered).
Proof. split; cbn; constructor. Qed.

Lemma created_metric_is_collected_witness :
  do_collect metric_users = true /\
  exists s,
    samples_of metric_users
      (storage (world_after collect_metrics world_users)) =
    (samples_of metric_users (storage world_users) ++ [s])%list.
Proof.
  assert (Hrun : create_metric slugify_ascii "constant_5" "Users" None None ∅
                               world_registered =
                 (Returned metric_users, world_users))
    by (vm_compute; reflexivity).
  destruct (created_metric_is_collected
              slugify_ascii world_registered world_users "constant_5" "Users"
              None None ∅ metric_users storage_ok_world_registered Hrun)
    as (Hon & Hrow & Hok & Hnext).
  split; [exact Hon|].
  destruct (Hnext world_users Hok Hrow) as [_ Hone].
  apply (Hone (world_after collect_metrics world_users)). reflexivity.
Defined.

(** * Further properties of the code *)

(** ** The registry *)

Lemma world_eta (w : World) :
  mkWorld (mkMetricManager (registry_of w)) (storage w) (utc_clock w)
          (utc_reads w) = w.
Proof. destruct w as [[r] db clock reads]. reflexivity. Qed.

Lemma unregister_metric_type_eq label w :
  unregister_metric_type label w =
  match registry_of w !! label with
  | Some _ =>
      (Returned tt,
       mkWorld (mkMetricManager (delete label (registry_of w)))
               (storage w) (utc_clock w) (utc_reads w))
  | None => (Raised (KeyError label), w)
  end.
Proof.
  unfold unregister_metric_type, bind, registry_of; cbn.
  destruct (_registry (manager w) !! label); reflexivity.
Qed.

(** X1. [unregister_metric_type] of a label that is not registered raises
    [KeyError] with that label and leaves the world as it was. *)
Theorem unregister_missing_raises_KeyError (w : World) (label : string) :
  registry_of w !! label = None ->
  unregister_metric_type label w = (Raised (KeyError label), w).
Proof. intros H. now rewrite unregister_metric_type_eq, H. Qed.

Lemma unregister_missing_raises_KeyError_witness :
  unregister_metric_type "gone" world_registered =
  (Raised (KeyError "gone"), world_registered).
Proof.
  apply (unregister_missing_raises_KeyError world_registered "gone").
  reflexivity.
Defined.

(** X2. [unregister_metric_type] of a registered label returns normally;
    afterwards every other label resolves as before, the registered labels
    are the former ones without that label, and the storage and the clock
    are untouched. *)
Theorem unregister_registered_removes_only_that_label
    (w : World) (label : string) :
  is_Some (registry_of w !! label) ->
  let w' := world_after (unregister_metric_type label) w in
  result (unregister_metric_type label) w = Returned tt /\
  (forall other,
     other <> label ->
     result (get_metric_type other) w' = result (get_metric_type other) w) /\
  dom (registry_of w') = dom (registry_of w) ∖ {[ label ]} /\
  storage w' = storage w /\
  utc_reads w' = utc_reads w.
Proof.
  intros [mt Hreg]. cbn zeta. unfold result, world_after.
  rewrite unregister_metric_type_eq, Hreg. cbn [fst snd].
  repeat split.
  - intros other Hne. rewrite !get_metric_type_eq. cbn.
    now rewrite lookup_delete_ne by congruence.
  - cbn. apply dom_delete_L.
Qed.

Lemma unregister_registered_removes_only_that_label_witness :
  result (unregister_metric_type "constant_5") world_registered =
    Returned tt /\
  dom (registry_of
         (world_after (unregister_metric_type "constant_5") world_registered))
  = dom (registry_of world_registered) ∖ {[ "constant_5" ]}.
Proof.
  destruct (unregister_registered_removes_only_that_label
              world_registered "constant_5") as (Hret & _ & Hdom & _).
  - exists constant_5. reflexivity.
  - split; [exact Hret | exact Hdom].
Defined.

(** X3. [register_metric_type] returns normally; afterwards every other
    label resolves as before, the registered labels are the former ones
    and that label, and the storage and the clock are untouched. *)
Theorem register_changes_only_that_label
    (w : World) (label : string) (mt : MetricType) :
  let w' := world_after (register_metric_type label mt) w in
  result (register_metric_type label mt) w = Returned tt /\
  (forall other,
     other <> label ->
     result (get_metric_type other) w' = result (get_metric_type other) w) /\
  dom (registry_of w') = {[ label ]} ∪ dom (registry_of w) /\
  storage w' = storage w /\
  utc_reads w' = utc_reads w.
Proof.
  cbn zeta. unfold result, world_after.
  rewrite register_metric_type_eq. cbn [fst snd].
  repeat split.
  - intros other Hne. rewrite !get_metric_type_eq. cbn.
    now rewrite lookup_insert_ne by congruence.
  - cbn. apply dom_insert_L.
Qed.

Lemma register_changes_only_that_label_witness :
  result (get_metric_type "constant_5")
         (world_after (register_metric_type "down" failing_type)
                      world_registered)
  = result (get_metric_type "constant_5") world_registered.
Proof.
  destruct (register_changes_only_that_label
              world_registered "down" failing_type) as (_ & Hother & _).
  apply Hother. discriminate.
Defined.

(** X4. Registering a label that was not registered and unregistering it
    again returns normally and gives back the world one started from;
    when the label was registered before, the former metric type is not
    restored: the label resolves to nothing. *)
Theorem register_then_unregister_round_trip
    (w : World) (label : string) (mt : MetricType) :
  let run := register_metric_type label mt ;;; unregister_metric_type label in
  result run w = Returned tt /\
  (registry_of w !! label = None -> world_after run w = w) /\
  registry_of (world_after run w) = delete label (registry_of w).
Proof.
  cbn zeta. unfold result, world_after, bind.
  rewrite register_metric_type_eq, unregister_metric_type_eq.
  unfold registry_of; cbn [manager _registry storage utc_clock utc_reads].
  rewrite lookup_insert_eq. cbn [fst snd manager _registry].
  repeat split.
  - intros Hnone. rewrite delete_insert_id by exact Hnone. apply world_eta.
  - apply delete_insert_eq.
Qed.

Lemma register_then_unregister_round_trip_witness :
  world_after (register_metric_type "constant_5" constant_5 ;;;
               unregister_metric_type "constant_5") fresh_world
  = fresh_world.
Proof.
  apply (register_then_unregister_round_trip
           fresh_world "constant_5" constant_5).
  reflexivity.
Defined.

(** X5. On a manager as [__init__] leaves it nothing is registered:
    every label resolves to [None], [unregister_metric_type] raises
    [KeyError] for every label and [create_metric] raises for every type
    label, each leaving the world as it was. *)
Theorem fresh_manager_has_no_metric_types
    (slugify : string -> string) (w : World) :
  manager w = MetricManager_init ->
  forall (tl lbl : string) (slug descr : option string)
         (kwargs : gmap string PyValue),
    get_metric_type tl w = (Returned None, w) /\
    unregister_metric_type tl w = (Raised (KeyError tl), w) /\
    create_metric slugify tl lbl slug descr kwargs w =
      (Raised (Exception ("MetricType doesn't exist with label " ++ tl)), w).
Proof.
  intros Hinit tl lbl slug descr kwargs.
  assert (Hnone : registry_of w !! tl = None).
  { unfold registry_of. rewrite Hinit. apply lookup_empty. }
  repeat split.
  - now rewrite get_metric_type_eq, Hnone.
  - now rewrite unregister_metric_type_eq, Hnone.
  - unfold create_metric, bind. now rewrite get_metric_type_eq, Hnone.
Qed.

Lemma fresh_manager_has_no_metric_types_witness :
  create_metric slugify_ascii "constant_5" "Users" None None ∅ world_init =
  (Raised (Exception "MetricType doesn't exist with label constant_5"),
   world_init).
Proof.
  apply (fresh_manager_has_no_metric_types slugify_ascii world_init eq_refl
           "constant_5" "Users" None None ∅).
Defined.

(** ** Creating a metric *)

Lemma create_metric_eq slugify tl lbl slug descr kwargs w :
  create_metric slugify tl lbl slug descr kwargs w =
  match registry_of w !! tl with
  | None =>
      (Raised (Exception ("MetricType doesn't exist with label " ++ tl)), w)
  | Some _ =>
      Metric_objects_create tl lbl
        match slug with
        | Some s => if truthy_str slug then s else slugify lbl
        | None => slugify lbl
        end
        descr kwargs w
  end.
Proof.
  unfold create_metric, bind. rewrite get_metric_type_eq.
  destruct (registry_of w !! tl); [|reflexivity].
  now rewrite kwargs_or_empty.
Qed.

Lemma slug_taken_false (s : string) (db : Storage) :
  slug_taken s db = false <-> ~ In s (map slug (Metric_objects db)).
Proof.
  unfold slug_taken. induction (Metric_objects db) as [|m ms IH]; cbn.
  - tauto.
  - rewrite orb_false_iff, IH, String.eqb_neq. tauto.
Qed.

(** X6. A slug handed to [create_metric] that is not the empty string is
    stored as it is: [slugify] is not consulted, whatever the label, and
    when no stored metric has the slug the new metric carries it. *)
Theorem create_metric_keeps_given_slug
    (slugify slugify' : string -> string) (w : World) (tl lbl s : string)
    (descr : option string) (kwargs : gmap string PyValue) :
  s <> "" ->
  create_metric slugify tl lbl (Some s) descr kwargs w =
    create_metric slugify' tl lbl (Some s) descr kwargs w /\
  (is_Some (registry_of w !! tl) ->
   slug_taken s (storage w) = false ->
   exists m,
     create_metric slugify tl lbl (Some s) descr kwargs w =
       (Returned m, world_with_metric m w) /\
     slug m = s).
Proof.
  intros Hs. apply String.eqb_neq in Hs.
  rewrite !create_metric_eq. cbn [truthy_str]. rewrite Hs. cbn [negb].
  split; [reflexivity|].
  intros [cls ->] Hfree. rewrite Metric_objects_create_eq, Hfree.
  eexists. split; reflexivity.
Qed.

Lemma create_metric_keeps_given_slug_witness :
  exists m,
    create_metric slugify_ascii "constant_5" "Users" (Some "head-count") None
                  ∅ world_users =
      (Returned m, world_with_metric m world_users) /\
    slug m = "head-count".
Proof.
  destruct (create_metric_keeps_given_slug
              slugify_ascii slugify_ascii world_users "constant_5" "Users"
              "head-count" None ∅) as [_ Hrun].
  - discriminate.
  - apply Hrun; [exists constant_5|]; reflexivity.
Defined.

(** X7. The empty string as slug is a false value for [if not slug]:
    [create_metric] treats it exactly as an omitted slug and derives the
    slug from the label. *)
Theorem create_metric_empty_slug_is_omitted
    (slugify : string -> string) (w : World) (tl lbl : string)
    (descr : option string) (kwargs : gmap string PyValue) :
  create_metric slugify tl lbl (Some "") descr kwargs w =
  create_metric slugify tl lbl None descr kwargs w.
Proof. rewrite !create_metric_eq. reflexivity. Qed.

(** What a call of [create_metric] can do to the world. *)
Lemma create_metric_cases slugify tl lbl slug descr kwargs w r w' :
  create_metric slugify tl lbl slug descr kwargs w = (r, w') ->
  (exists e, r = Raised e /\ w' = w) \/
  (exists s,
     slug_taken s (storage w) = false /\
     r = Returned (created_metric tl lbl s descr kwargs w) /\
     w' = world_with_metric (created_metric tl lbl s descr kwargs w) w).
Proof.
  rewrite create_metric_eq.
  destruct (registry_of w !! tl) as [cls|].
  - rewrite Metric_objects_create_eq.
    match goal with
    | |- context [slug_taken ?s _] =>
        destruct (slug_taken s (storage w)) eqn:Htaken;
        intros [= <- <-]; [left; eauto | right; exists s; auto]
    end.
  - intros [= <- <-]. left. eauto.
Qed.

(** X8. [create_metric] keeps the tables sound however it ends: if before
    the call the [Metric] primary keys are unique and below the sequence,
    no two metrics share a slug, and the samples have unique primary keys
    and foreign keys the [Metric] sequence handed out, the same holds
    after it. *)
Theorem create_metric_keeps_tables_sound
    (slugify : string -> string) (w w' : World) (tl lbl : string)
    (slug descr : option string) (kwargs : gmap string PyValue)
    (r : outcome Metric) :
  storage_ok (storage w) ->
  slugs_unique (storage w) ->
  samples_ok (storage w) ->
  samples_fk_ok (storage w) ->
  create_metric slugify tl lbl slug descr kwargs w = (r, w') ->
  storage_ok (storage w') /\
  slugs_unique (storage w') /\
  samples_ok (storage w') /\
  samples_fk_ok (storage w').
Proof.
  intros Hok Hslugs Hsamples Hfk Hrun.
  apply create_metric_cases in Hrun.
  destruct Hrun as [(e & _ & ->) | (s & Hfree & _ & ->)]; [tauto|].
  split; [now apply storage_ok_world_with_metric|].
  split; [|split].
  - unfold slugs_unique in *. cbn. rewrite map_app. cbn.
    apply List.NoDup_app; [exact Hslugs | repeat constructor; intros [] |].
    intros k Hk [<-|[]]. now apply slug_taken_false in Hfree.
  - exact Hsamples.
  - unfold samples_fk_ok in *. cbn.
    eapply List.Forall_impl; [|exact Hfk]. cbn. intros; lia.
Qed.

Lemma tables_sound_world_users :
  storage_ok (storage world_users) /\ slugs_unique (storage world_users) /\
  samples_ok (storage world_users) /\ samples_fk_ok (storage world_users).
Proof.
  split; [exact storage_ok_world_users|].
  repeat split; cbn; repeat constructor; intros [].
Qed.

Lemma create_metric_keeps_tables_sound_witness :
  slugs_unique
    (storage (world_after
                (create_metric slugify_ascii "constant_5" "Head count" None
                               None ∅) world_users)).
Proof.
  destruct tables_sound_world_users as (Hok & Hslugs & Hsamples & Hfk).
  apply (create_metric_keeps_tables_sound
           slugify_ascii world_users _ "constant_5" "Head count" None None ∅
           _ Hok Hslugs Hsamples Hfk eq_refl).
Defined.

(** X9. A call of [create_metric] that raises changes nothing.  A call
    that returns appends the returned metric to the [Metric] table under
    the next primary key, which no stored metric has, and leaves the
    stored metrics, the samples, the registry and the clock as they were. *)
Theorem create_metric_raises_nothing_written_returns_one_row
    (slugify : string -> string) (w w' : World) (tl lbl : string)
    (slug descr : option string) (kwargs : gmap string PyValue)
    (r : outcome Metric) :
  storage_ok (storage w) ->
  create_metric slugify tl lbl slug descr kwargs w = (r, w') ->
  (forall e, r = Raised e -> w' = w) /\
  (forall m,
     r = Returned m ->
     Metric_objects (storage w') = (Metric_objects (storage w) ++ [m])%list /\
     metric_pk m = Metric_next_pk (storage w) /\
     ~ In (metric_pk m) (map metric_pk (Metric_objects (storage w))) /\
     DatumSample_objects (storage w') = DatumSample_objects (storage w) /\
     manager w' = manager w /\
     utc_reads w' = utc_reads w).
Proof.
  intros [_ Hlt] Hrun. apply create_metric_cases in Hrun.
  destruct Hrun as [(e & -> & ->) | (s & _ & -> & ->)].
  - split; [reflexivity | discriminate].
  - split; [discriminate|]. intros m [= <-]. repeat split.
    cbn. intros Hin. apply in_map_iff in Hin. destruct Hin as (m & Hpk & Hm).
    rewrite List.Forall_forall in Hlt. specialize (Hlt m Hm). lia.
Qed.

Lemma create_metric_raises_nothing_written_returns_one_row_witness :
  world_after (create_metric slugify_ascii "constant_5" "Users" None None ∅)
              world_users
  = world_users.
Proof.
  destruct (create_metric_raises_nothing_written_returns_one_row
              slugify_ascii world_users _ "constant_5" "Users" None None ∅ _
              storage_ok_world_users eq_refl) as [Hraised _].
  apply (Hraised (IntegrityError "column slug is not unique")).
  reflexivity.
Defined.

(** X10. The keyword arguments of [create_metric] go to
    [metric_properties] and nowhere else: whatever their names, the
    returned metric has the type label, the label and the description it
    was given, empty unit labels, and [do_collect = true]. *)
Theorem create_metric_kwargs_set_no_field
    (slugify : string -> string) (w w' : World) (tl lbl : string)
    (slug descr : option string) (kwargs : gmap string PyValue) (m : Metric) :
  create_metric slugify tl lbl slug descr kwargs w = (Returned m, w') ->
  metric_properties m = kwargs /\
  metric_type_label m = tl /\
  label m = lbl /\
  description m = descr /\
  unit_label m = "" /\
  unit_label_plural m = "" /\
  do_collect m = true.
Proof.
  intros Hrun. apply create_metric_returned_inv in Hrun.
  destruct Hrun as (s & -> & _). repeat split.
Qed.

Lemma create_metric_kwargs_set_no_field_witness :
  exists m,
    result (create_metric slugify_ascii "constant_5" "Users" None None
              {[ "unit_label" := PyStr "user account";
                 "do_collect" := PyBool false ]}) world_registered
    = Returned m /\
    unit_label m = "" /\ do_collect m = true.
Proof.
  eexists. split; [reflexivity|].
  destruct (create_metric_kwargs_set_no_field
              slugify_ascii world_registered _ "constant_5" "Users" None None
              {[ "unit_label" := PyStr "user account";
                 "do_collect" := PyBool false ]} _ eq_refl)
    as (_ & _ & _ & _ & Hunit & _ & Hon).
  split; [exact Hunit | exact Hon].
Defined.

(** X11. A metric that [create_metric] has just returned has no sample,
    provided the samples stored before refer to metrics that exist:
    [get_latest_sample] on it raises [IndexError] until it is collected. *)
Theorem created_metric_has_no_sample_yet
    (slugify : string -> string) (w w' : World) (tl lbl : string)
    (slug descr : option string) (kwargs : gmap string PyValue) (m : Metric) :
  samples_fk_ok (storage w) ->
  create_metric slugify tl lbl slug descr kwargs w = (Returned m, w') ->
  samples_of m (storage w') = [] /\
  get_latest_sample m w' =
    (Raised (IndexError "list index out of range"), w').
Proof.
  intros Hfk Hrun. apply create_metric_returned_inv in Hrun.
  destruct Hrun as (s & Hm & ->).
  assert (Hnone : samples_of m (storage (world_with_metric m w)) = []).
  { unfold samples_of. cbn. unfold samples_fk_ok in Hfk.
    induction (DatumSample_objects (storage w)) as [|x xs IH];
      [reflexivity|].
    apply List.Forall_cons_iff in Hfk. destruct Hfk as [Hx Hxs]. cbn.
    destruct (Nat.eqb_spec (metric x) (metric_pk m)) as [Heq|_].
    - rewrite Hm in Heq. cbn in Heq. lia.
    - now apply IH. }
  split; [exact Hnone|].
  rewrite get_latest_sample_eq, Hnone. reflexivity.
Qed.

Lemma created_metric_has_no_sample_yet_witness :
  get_latest_sample metric_users world_users =
  (Raised (IndexError "list index out of range"), world_users).
Proof.
  assert (Hrun : create_metric slugify_ascii "constant_5" "Users" None None ∅
                               world_registered =
                 (Returned metric_users, world_users))
    by (vm_compute; reflexivity).
  apply (created_metric_has_no_sample_yet
           slugify_ascii world_registered world_users "constant_5" "Users"
           None None ∅ metric_users).
  - constructor.
  - exact Hrun.
Defined.

(** ** Collecting *)

Lemma for_each_collect_rows (qs : list Metric) :
  forall w w',
    for_each qs collect_metric w = (Returned tt, w') ->
    exists added, collected_rows w w' qs added.
Proof.
  induction qs as [|x qs IH]; intros w w' Hrun.
  - injection Hrun as <-. exists [].
    repeat split; cbn; try lia. now rewrite app_nil_r.
  - rewrite for_each_cons in Hrun.
    destruct (collect_metric x w) as [rx w1] eqn:Hx.
    rewrite collect_metric_eq in Hx.
    destruct (registry_of w !! metric_type_label x) as [cls|];
      [|injection Hx as <- <-; discriminate Hrun].
    destruct (gather_data_sample cls (storage w) x) as [v|e];
      [|injection Hx as <- <-; discriminate Hrun].
    destruct (bigint_ok v); injection Hx as <- <-; [|discriminate Hrun].
    apply IH in Hrun. destruct Hrun as (added & Hrows).
    exists (collected_sample x v w :: added).
    destruct Hrows as (Hm & Hc & Ht & Hn & Hs & Hfk & Hts & Hpk & Hr & Hsq).
    cbn in Hm, Hc, Ht, Hn, Hs, Hts, Hpk, Hr, Hsq.
    unfold collected_rows. cbn [length map seq].
    repeat split; try assumption.
    + rewrite Hs. now rewrite <- app_assoc.
    + cbn. now rewrite Hfk.
    + rewrite Hts. reflexivity.
    + rewrite Hpk. reflexivity.
    + lia.
    + lia.
Qed.

(** A run got through a prefix [done] of the metrics, storing [added];
    when it raised, the call on the next metric raised, wrote nothing and
    read the clock at most once. *)
Lemma for_each_collect_trace (qs : list Metric) (w w' : World) r :
  for_each qs collect_metric w = (r, w') ->
  exists done rest added w1,
    qs = (done ++ rest)%list /\
    collected_rows w w1 done added /\
    (r = Returned tt -> rest = [] /\ w' = w1) /\
    (w' = w1 \/ w' = world_clock_read w1).
Proof.
  intros Hrun. destruct r as [[]|e].
  - destruct (for_each_collect_rows _ _ _ Hrun) as [added Hrows].
    exists qs, [], added, w'. rewrite app_nil_r. auto.
  - apply for_each_collect_raised in Hrun.
    destruct Hrun as (pre & self & post & w1 & Hqs & Hpre & Hself).
    destruct (for_each_collect_rows _ _ _ Hpre) as [added Hrows].
    exists pre, (self :: post), added, w1.
    split; [exact Hqs|]. split; [exact Hrows|]. split; [discriminate|].
    apply collect_metric_step in Hself.
    destruct Hself as [(row & Hr & _) | (e' & _ & Hw)];
      [discriminate Hr | exact Hw].
Qed.

(** X12. When the strategy of a metric raises, [collect_metric] raises
    the same exception and writes nothing: the world is as it was and the
    clock has not been read. *)
Theorem collect_metric_strategy_exception_propagates
    (self : Metric) (w : World) (cls : MetricType) (e : exn) :
  registry_of w !! metric_type_label self = Some cls ->
  gather_data_sample cls (storage w) self = Raised e ->
  collect_metric self w = (Raised e, w).
Proof. intros Hreg Hraise. now rewrite collect_metric_eq, Hreg, Hraise. Qed.

Lemma collect_metric_strategy_exception_propagates_witness :
  collect_metric metric_down world_down =
  (Raised (PluginError "source is down"), world_down).
Proof.
  apply (collect_metric_strategy_exception_propagates
           metric_down world_down failing_type); reflexivity.
Defined.

(** The head of the ordered query set is a row of the list that is as new
    as any. *)
Lemma merge_sort_head_newest (l : list DatumSample) (s : DatumSample) rest :
  merge_sort newest_first l = s :: rest ->
  In s l /\ forall s', In s' l -> utc_timestamp s' <= utc_timestamp s.
Proof.
  intros Hsort.
  pose proof (merge_sort_Permutation newest_first l) as Hperm.
  pose proof (StronglySorted_merge_sort newest_first l) as Hsorted.
  rewrite Hsort in Hperm, Hsorted. split.
  - eapply Permutation_in; [exact Hperm | now left].
  - intros s' Hin'.
    apply (Permutation_in _ (Permutation_sym Hperm)) in Hin'.
    apply StronglySorted_inv in Hsorted. destruct Hsorted as [_ Hall].
    destruct Hin' as [<-|Hrest]; [lia|].
    rewrite Forall_forall in Hall.
    assert (Hnewer : newest_first s s')
      by (apply Hall; now apply list_elem_of_In).
    unfold newest_first in Hnewer. lia.
Qed.

Lemma samples_of_after_collect (self : Metric) (v : Z) (w : World) :
  samples_of self
    (storage (world_with_sample (collected_sample self v w) w)) =
  (samples_of self (storage w) ++ [collected_sample self v w])%list.
Proof.
  unfold samples_of. cbn. rewrite List.filter_app. cbn.
  now rewrite Nat.eqb_refl.
Qed.

(** X13. Collect, then ask for the latest sample: when the strategy
    returns an integer that fits the 64-bit column and the clock reads
    later than the timestamp of every sample the metric already has,
    [get_latest_sample] returns the sample the collection has just
    written, with the value the strategy returned. *)
Theorem latest_after_collect_is_new_sample
    (self : Metric) (w : World) (cls : MetricType) (v : Z) :
  registry_of w !! metric_type_label self = Some cls ->
  gather_data_sample cls (storage w) self = Returned v ->
  bigint_ok v = true ->
  (forall s,
     In s (samples_of self (storage w)) ->
     utc_timestamp s < utc_clock w (utc_reads w)) ->
  exists row,
    (collect_metric self ;;; get_latest_sample self) w =
      (Returned row, world_after (collect_metric self) w) /\
    value row = v /\
    utc_timestamp row = utc_clock w (utc_reads w) /\
    metric row = metric_pk self /\
    sample_pk row = DatumSample_next_pk (storage w).
Proof.
  intros Hreg Hv Hfits Holder.
  exists (collected_sample self v w).
  split; [|repeat split].
  unfold bind, world_after. rewrite collect_metric_eq, Hreg, Hv, Hfits.
  cbn [snd].
  rewrite get_latest_sample_eq, samples_of_after_collect.
  destruct (merge_sort newest_first
              (samples_of self (storage w) ++ [collected_sample self v w]))
    as [|s rest] eqn:Hsort.
  - pose proof (merge_sort_Permutation newest_first
                  (samples_of self (storage w)
                   ++ [collected_sample self v w])) as Hperm.
    rewrite Hsort in Hperm. apply Permutation_nil in Hperm.
    now destruct (samples_of self (storage w)).
  - apply merge_sort_head_newest in Hsort. destruct Hsort as [Hin Hmax].
    apply in_app_or in Hin. destruct Hin as [Hold | [<- | []]];
      [|reflexivity].
    specialize (Holder s Hold).
    assert (Hnew : In (collected_sample self v w)
                      (samples_of self (storage w)
                       ++ [collected_sample self v w]))
      by (apply in_or_app; right; now left).
    specialize (Hmax _ Hnew). cbn in Hmax. lia.
Qed.

Lemma latest_after_collect_is_new_sample_witness :
  exists row,
    result (collect_metric metric_users ;;; get_latest_sample metric_users)
           world_collected_once = Returned row /\
    value row = 5 /\ utc_timestamp row = 1001.
Proof.
  destruct (latest_after_collect_is_new_sample
              metric_users world_collected_once constant_5 5)
    as (row & Hrun & Hv & Hts & _).
  - reflexivity.
  - reflexivity.
  - reflexivity.
  - intros s [<- | []]. reflexivity.
  - exists row. unfold result. rewrite Hrun. repeat split; assumption.
Defined.

(** X14. The latest sample is the one with the latest timestamp, not the
    one written last: when the strategy returns an integer that fits the
    64-bit column and the clock reads earlier than the timestamp of a
    sample the metric already has, [get_latest_sample] right after the
    collection returns a sample that was there before, not the new one. *)
Theorem latest_after_collect_is_old_sample_when_clock_is_behind
    (self : Metric) (w : World) (cls : MetricType) (v : Z)
    (old : DatumSample) :
  registry_of w !! metric_type_label self = Some cls ->
  gather_data_sample cls (storage w) self = Returned v ->
  bigint_ok v = true ->
  In old (samples_of self (storage w)) ->
  utc_clock w (utc_reads w) < utc_timestamp old ->
  exists s,
    (collect_metric self ;;; get_latest_sample self) w =
      (Returned s, world_after (collect_metric self) w) /\
    In s (DatumSample_objects (storage w)) /\
    utc_clock w (utc_reads w) < utc_timestamp s.
Proof.
  intros Hreg Hv Hfits Hold Hbehind.
  unfold bind, world_after. rewrite collect_metric_eq, Hreg, Hv, Hfits.
  cbn [snd].
  rewrite get_latest_sample_eq, samples_of_after_collect.
  destruct (merge_sort newest_first
              (samples_of self (storage w) ++ [collected_sample self v w]))
    as [|s rest] eqn:Hsort.
  - pose proof (merge_sort_Permutation newest_first
                  (samples_of self (storage w)
                   ++ [collected_sample self v w])) as Hperm.
    rewrite Hsort in Hperm. apply Permutation_nil in Hperm.
    now destruct (samples_of self (storage w)).
  - apply merge_sort_head_newest in Hsort. destruct Hsort as [Hin Hmax].
    assert (Hold' : In old (samples_of self (storage w)
                            ++ [collected_sample self v w]))
      by (apply in_or_app; now left).
    specialize (Hmax _ Hold').
    exists s. split; [reflexivity|]. split; [|lia].
    apply in_app_or in Hin. destruct Hin as [Hs | [<- | []]].
    + now apply samples_of_spec in Hs.
    + cbn in Hmax. lia.
Qed.

Lemma latest_after_collect_is_old_sample_when_clock_is_behind_witness :
  result (collect_metric metric_users ;;; get_latest_sample metric_users)
         world_clock_set_back
  = Returned (mkDatumSample 1 1 1000 5).
Proof.
  destruct (latest_after_collect_is_old_sample_when_clock_is_behind
              metric_users world_clock_set_back constant_5 5
              (mkDatumSample 1 1 1000 5))
    as (s & Hrun & Hin & _).
  - reflexivity.
  - reflexivity.
  - reflexivity.
  - cbn. now left.
  - reflexivity.
  - unfold result. rewrite Hrun. cbn [fst].
    destruct Hin as [<- | []]. reflexivity.
Defined.

(** ** The collection run *)

Lemma collect_metrics_trace (w : World) r w' :
  collect_metrics w = (r, w') ->
  exists done rest added w1,
    List.filter do_collect (Metric_objects (storage w)) =
      (done ++ rest)%list /\
    collected_rows w w1 done added /\
    (r = Returned tt -> rest = [] /\ w' = w1) /\
    (w' = w1 \/ w' = world_clock_read w1).
Proof. rewrite collect_metrics_eq. apply for_each_collect_trace. Qed.

Lemma in_done_collectible (db : Storage) (done rest : list Metric) m :
  List.filter do_collect (Metric_objects db) = (done ++ rest)%list ->
  In m done ->
  In m (Metric_objects db) /\ do_collect m = true.
Proof.
  intros Hqs Hin. apply filter_In. rewrite Hqs. apply in_or_app. now left.
Qed.

(** X15. However [collect_metrics] ends, it has only appended samples:
    the samples stored before are still there, unchanged and in place,
    the [Metric] table and the registry are as they were, and every sample
    added belongs to a stored metric with [do_collect = true].  The clock
    was read once per sample added, and at most once more when the run
    raised. *)
Theorem collect_metrics_only_appends_samples
    (w w' : World) (r : outcome unit) :
  collect_metrics w = (r, w') ->
  manager w' = manager w /\
  Metric_objects (storage w') = Metric_objects (storage w) /\
  exists added,
    DatumSample_objects (storage w') =
      (DatumSample_objects (storage w) ++ added)%list /\
    (forall s,
       In s added ->
       exists m,
         In m (Metric_objects (storage w)) /\ do_collect m = true /\
         metric s = metric_pk m) /\
    (utc_reads w' = (utc_reads w + length added)%nat \/
     utc_reads w' = S (utc_reads w + length added)) /\
    (r = Returned tt -> utc_reads w' = (utc_reads w + length added)%nat).
Proof.
  intros Hrun. apply collect_metrics_trace in Hrun.
  destruct Hrun as (done & rest & added & w1 & Hqs & Hrows & Hret & Hw').
  destruct Hrows as (Hm & _ & Ht & _ & Hs & Hfk & _ & _ & Hr & _).
  assert (Hlen : length added = length done).
  { rewrite <- (length_map metric added), Hfk. apply length_map. }
  rewrite <- Hlen in Hr.
  assert (Hsame : manager w' = manager w1 /\ storage w' = storage w1)
    by (destruct Hw' as [-> | ->]; split; reflexivity).
  destruct Hsame as [Hmgr Hdb]. rewrite Hmgr, Hdb.
  split; [exact Hm|]. split; [exact Ht|].
  exists added. split; [exact Hs|]. split; [|split].
  - intros s Hin. apply (in_map metric) in Hin. rewrite Hfk in Hin.
    apply in_map_iff in Hin. destruct Hin as (m & Hpk & Hdone).
    destruct (in_done_collectible _ _ _ _ Hqs Hdone) as [Hrow Hon].
    exists m. auto.
  - destruct Hw' as [-> | ->]; [left | right]; cbn; now rewrite Hr.
  - intros Hreturned. destruct (Hret Hreturned) as [_ ->]. exact Hr.
Qed.

Lemma collect_metrics_only_appends_samples_witness :
  exists added,
    DatumSample_objects
      (storage (world_after collect_metrics world_down)) =
    (DatumSample_objects (storage world_down) ++ added)%list /\
    (utc_reads (world_after collect_metrics world_down) =
       (utc_reads world_down + length added)%nat \/
     utc_reads (world_after collect_metrics world_down) =
       S (utc_reads world_down + length added)).
Proof.
  destruct (collect_metrics_only_appends_samples
              world_down (world_after collect_metrics world_down)
              (result collect_metrics world_down) eq_refl)
    as (_ & _ & added & Hrows & _ & Hreads & _).
  exists added. split; [exact Hrows | exact Hreads].
Defined.

(** X16. When [collect_metrics] returns normally it has written exactly
    one sample for each metric with [do_collect = true], in the order of
    the [Metric] table; the samples carry successive readings of the
    clock and successive primary keys. *)
Theorem collect_metrics_returned_rows (w w' : World) :
  collect_metrics w = (Returned tt, w') ->
  exists added,
    collected_rows w w'
      (List.filter do_collect (Metric_objects (storage w))) added.
Proof.
  rewrite collect_metrics_eq. apply for_each_collect_rows.
Qed.

Lemma collect_metrics_returned_rows_witness :
  exists added,
    collected_rows world_users (world_after collect_metrics world_users)
                   [metric_users] added.
Proof.
  apply (collect_metrics_returned_rows
           world_users (world_after collect_metrics world_users)).
  reflexivity.
Defined.

(** X17. [collect_metrics] keeps the tables sound however it ends: if
    before the run the [Metric] primary keys are unique and below their
    sequence, and the samples have unique primary keys below theirs and
    foreign keys the [Metric] sequence handed out, the same holds after
    it. *)
Theorem collect_metrics_keeps_tables_sound
    (w w' : World) (r : outcome unit) :
  storage_ok (storage w) ->
  samples_ok (storage w) ->
  samples_fk_ok (storage w) ->
  collect_metrics w = (r, w') ->
  storage_ok (storage w') /\
  samples_ok (storage w') /\
  samples_fk_ok (storage w').
Proof.
  intros Hok [Hnd Hlt] Hfk Hrun. apply collect_metrics_trace in Hrun.
  destruct Hrun as (done & rest & added & w1 & Hqs & Hrows & _ & Hw').
  destruct Hrows as (_ & _ & Ht & Hn & Hs & Hfks & _ & Hpk & _ & Hsq).
  assert (Hdb : storage w' = storage w1)
    by (destruct Hw' as [-> | ->]; reflexivity).
  rewrite Hdb. clear Hdb Hw'.
  rewrite List.Forall_forall in Hlt.
  split; [|split].
  - unfold storage_ok. rewrite Ht, Hn. exact Hok.
  - unfold samples_ok. rewrite Hs, Hsq, map_app, Hpk. split.
    + apply List.NoDup_app; [exact Hnd | apply seq_NoDup |].
      intros k Hk Hseq. apply in_seq in Hseq.
      apply in_map_iff in Hk. destruct Hk as (s & <- & Hin).
      specialize (Hlt s Hin). lia.
    + apply List.Forall_app. split; apply List.Forall_forall; intros s Hin.
      * specialize (Hlt s Hin). lia.
      * apply (in_map sample_pk) in Hin. rewrite Hpk in Hin.
        apply in_seq in Hin. lia.
  - unfold samples_fk_ok in *. rewrite Hs, Hn.
    apply List.Forall_app. split; [exact Hfk|].
    apply List.Forall_forall. intros s Hin.
    apply (in_map metric) in Hin. rewrite Hfks in Hin.
    apply in_map_iff in Hin. destruct Hin as (m & <- & Hdone).
    destruct (in_done_collectible _ _ _ _ Hqs Hdone) as [Hrow _].
    destruct Hok as [_ Hpks]. rewrite List.Forall_forall in Hpks.
    now apply Hpks.
Qed.

Lemma collect_metrics_keeps_tables_sound_witness :
  samples_ok (storage (world_after collect_metrics world_users)).
Proof.
  destruct tables_sound_world_users as (Hok & _ & Hsamples & Hfk).
  apply (collect_metrics_keeps_tables_sound
           world_users (world_after collect_metrics world_users)
           (result collect_metrics world_users) Hok Hsamples Hfk eq_refl).
Defined.

(** X18. With no metric to collect, the table being empty or all its
    metrics having [do_collect = false], [collect_metrics] returns
    normally and leaves the world as it was, whatever the registry
    holds. *)
Theorem collect_metrics_nothing_to_collect (w : World) :
  (forall m, In m (Metric_objects (storage w)) -> do_collect m = false) ->
  collect_metrics w = (Returned tt, w).
Proof.
  intros Hoff. rewrite collect_metrics_eq.
  assert (Hnone : List.filter do_collect (Metric_objects (storage w)) = []).
  { induction (Metric_objects (storage w)) as [|m ms IH]; [reflexivity|].
    cbn. rewrite (Hoff m (or_introl eq_refl)).
    apply IH. intros m' Hm'. apply Hoff. now right. }
  now rewrite Hnone.
Qed.

Lemma collect_metrics_nothing_to_collect_witness :
  collect_metrics world_paused = (Returned tt, world_paused).
Proof.
  apply (collect_metrics_nothing_to_collect world_paused).
  intros m [<- | []]. reflexivity.
Defined.

(** X19. When [collect_metrics] raises, the collectible metrics before
    some metric were collected and [collect_metric] on that metric raised
    the exception, writing nothing.  There are three ways it can have:
    the metric's type label is not registered and the exception is the
    [TypeError] of calling [None]; its strategy raised the exception; or
    its strategy returned an integer that does not fit the 64-bit column
    and the insert was refused after the clock had been read.  The
    collectible metrics before it each have one more sample, that metric
    and the collectible ones after it have the samples they had. *)
Theorem collect_metrics_raises_at_first_failing_metric
    (w w' : World) (e : exn) :
  pks_unique (storage w) ->
  collect_metrics w = (Raised e, w') ->
  exists pre self post w1,
    List.filter do_collect (Metric_objects (storage w)) =
      (pre ++ self :: post)%list /\
    for_each pre collect_metric w = (Returned tt, w1) /\
    collect_metric self w1 = (Raised e, w') /\
    storage w' = storage w1 /\
    ((registry_of w !! metric_type_label self = None /\
      e = TypeError "'NoneType' object is not callable" /\ w' = w1) \/
     (exists cls,
        registry_of w !! metric_type_label self = Some cls /\
        gather_data_sample cls (storage w1) self = Raised e /\ w' = w1) \/
     (exists cls v,
        registry_of w !! metric_type_label self = Some cls /\
        gather_data_sample cls (storage w1) self = Returned v /\
        bigint_ok v = false /\ w' = world_clock_read w1)) /\
    (forall m, In m pre ->
       exists s,
         samples_of m (storage w') =
           (samples_of m (storage w) ++ [s])%list) /\
    (forall m, In m (self :: post) ->
       samples_of m (storage w') = samples_of m (storage w)).
Proof.
  intros Hok Hrun. rewrite collect_metrics_eq in Hrun.
  pose proof (NoDup_map_filter metric_pk do_collect _ Hok) as Hnd.
  apply samples_after_raised in Hrun.
  destruct Hrun as (pre & self & post & w1 & Hqs & Hpre & Hself & Hdb & _).
  rewrite Hqs, map_app in Hnd.
  pose proof (NoDup_app_remove_r _ _ Hnd) as Hnd_pre.
  exists pre, self, post, w1.
  split; [exact Hqs|]. split; [exact Hpre|]. split; [exact Hself|].
  split; [exact Hdb|]. split; [|split].
  - destruct (for_each_collect_returned _ _ _ Hpre) as (Hmgr & _).
    rewrite collect_metric_eq in Hself. unfold registry_of in *.
    rewrite Hmgr in Hself.
    destruct (_registry (manager w) !! metric_type_label self) as [cls|].
    + right.
      destruct (gather_data_sample cls (storage w1) self) as [v|e'] eqn:Hg.
      * right. exists cls, v. destruct (bigint_ok v) eqn:Hfits;
          [discriminate Hself|]. injection Hself as <- <-.
        repeat split; assumption.
      * left. exists cls. injection Hself as <- <-. repeat split.
        exact Hg.
    + left. injection Hself as <- <-. repeat split.
  - intros m Hm. rewrite Hdb.
    apply (samples_after_returned _ _ _ m Hpre Hnd_pre). now apply in_map.
  - intros m Hm. rewrite Hdb.
    apply (samples_after_returned _ _ _ m Hpre Hnd_pre).
    intros Hk. apply (NoDup_app_disjoint _ _ (metric_pk m) Hnd Hk).
    now apply (in_map metric_pk) in Hm.
Qed.

Lemma pks_unique_world_down : pks_unique (storage world_down).
Proof. cbn. repeat constructor; cbn; intuition discriminate. Qed.

Lemma collect_metrics_raises_at_first_failing_metric_witness :
  exists pre self post w1 s,
    List.filter do_collect (Metric_objects (storage world_down)) =
      (pre ++ self :: post)%list /\
    collect_metric self w1 =
      (Raised (PluginError "source is down"),
       world_after collect_metrics world_down) /\
    samples_of metric_users
      (storage (world_after collect_metrics world_down)) =
    (samples_of metric_users (storage world_down) ++ [s])%list.
Proof.
  destruct (collect_metrics_raises_at_first_failing_metric
              world_down (world_after collect_metrics world_down)
              (PluginError "source is down") pks_unique_world_down eq_refl)
    as (pre & self & post & w1 & Hqs & Hpre & Hself & _ & _ & Hone & _).
  assert (Hin : In metric_users pre).
  { destruct pre as [|m pre].
    - exfalso. injection Hpre as <-. cbn in Hqs. injection Hqs as <- _.
      vm_compute in Hself. discriminate Hself.
    - cbn in Hqs. injection Hqs as <- _. now left. }
  destruct (Hone metric_users Hin) as [s Hs].
  exists pre, self, post, w1, s.
  split; [exact Hqs|]. split; [exact Hself | exact Hs].
Defined.

(** ** Metrics and the registry over time *)

(** X20. [collect_metric] changes the samples of no other metric: however
    it ends, a metric with another primary key has the samples it had,
    and the [Metric] table and the registry are as they were. *)
Theorem collect_metric_touches_only_its_metric
    (self other : Metric) (w w' : World) (r : outcome unit) :
  collect_metric self w = (r, w') ->
  metric_pk other <> metric_pk self ->
  samples_of other (storage w') = samples_of other (storage w) /\
  Metric_objects (storage w') = Metric_objects (storage w) /\
  manager w' = manager w.
Proof.
  intros Hrun Hne. apply collect_metric_step in Hrun.
  destruct Hrun as [(row & _ & Hfk & ->) | (e & _ & [-> | ->])];
    [|tauto|tauto].
  repeat split. unfold samples_of. cbn. rewrite List.filter_app. cbn.
  rewrite Hfk.
  destruct (Nat.eqb_spec (metric_pk self) (metric_pk other));
    [congruence | apply app_nil_r].
Qed.

Lemma collect_metric_touches_only_its_metric_witness :
  samples_of metric_down
    (storage (world_after (collect_metric metric_users) world_down)) =
  samples_of metric_down (storage world_down).
Proof.
  apply (collect_metric_touches_only_its_metric
           metric_users metric_down world_down
           (world_after (collect_metric metric_users) world_down)
           (result (collect_metric metric_users) world_down) eq_refl).
  discriminate.
Defined.

(** X21. The metric type is looked up when the metric is collected, not
    when it was created: after [register_metric_type] puts a metric type
    under a metric's type label, [collect_metric] stores what that type
    gathers, when it fits the 64-bit column, whatever was registered
    under the label before. *)
Theorem collect_metric_uses_type_registered_last
    (self : Metric) (w : World) (mt : MetricType) (v : Z) :
  let w1 :=
    world_after (register_metric_type (metric_type_label self) mt) w in
  gather_data_sample mt (storage w) self = Returned v ->
  bigint_ok v = true ->
  collect_metric self w1 =
    (Returned tt, world_with_sample (collected_sample self v w1) w1).
Proof.
  cbn zeta. intros Hv Hfits. unfold world_after.
  rewrite register_metric_type_eq. cbn [snd].
  rewrite collect_metric_eq. unfold registry_of at 1.
  cbn [manager _registry storage]. rewrite lookup_insert_eq.
  now rewrite Hv, Hfits.
Qed.

Lemma collect_metric_uses_type_registered_last_witness :
  result (register_metric_type "down" constant_5 ;;;
          collect_metric metric_down ;;;
          get_latest_sample metric_down) world_down
  = Returned (mkDatumSample 1 2 1000 5).
Proof.
  pose proof (collect_metric_uses_type_registered_last
                metric_down world_down constant_5 5 eq_refl eq_refl) as Hrun.
  unfold result, bind. rewrite register_metric_type_eq.
  unfold world_after in Hrun. rewrite register_metric_type_eq in Hrun.
  cbn [snd] in Hrun. cbn [metric_type_label metric_down] in Hrun.
  rewrite Hrun. reflexivity.
Defined.

(** X22. A metric outlives its type: register a type, create a metric of
    it, unregister the type.  All three calls return normally, the metric
    stays in the table with [do_collect = true], and collecting it raises
    the [TypeError] of calling [None]. *)
Theorem metric_outlives_its_type
    (slugify : string -> string) (w : World) (tl lbl : string)
    (descr : option string) (kwargs : gmap string PyValue)
    (mt : MetricType) :
  slug_taken (slugify lbl) (storage w) = false ->
  exists m w',
    (register_metric_type tl mt ;;;
     (m <- create_metric slugify tl lbl None descr kwargs ;;
      (unregister_metric_type tl ;;; ret m))) w = (Returned m, w') /\
    In m (Metric_objects (storage w')) /\
    do_collect m = true /\
    metric_type_label m = tl /\
    collect_metric m w' =
      (Raised (TypeError "'NoneType' object is not callable"), w').
Proof.
  intros Hfree. unfold bind at 1. rewrite register_metric_type_eq.
  unfold bind at 1. rewrite create_metric_eq.
  unfold registry_of at 1. cbn [manager _registry].
  rewrite lookup_insert_eq, Metric_objects_create_eq.
  cbn [storage]. rewrite Hfree.
  unfold bind at 1. rewrite unregister_metric_type_eq.
  unfold registry_of at 1. cbn [manager world_with_metric _registry].
  rewrite lookup_insert_eq. cbn [ret].
  eexists. eexists. split; [reflexivity|]. repeat split.
  - cbn. apply in_or_app. right. now left.
  - rewrite collect_metric_eq. unfold registry_of.
    cbn [manager _registry created_metric metric_type_label].
    now rewrite lookup_delete_eq.
Qed.

Lemma metric_outlives_its_type_witness :
  exists m w',
    (register_metric_type "constant_5" constant_5 ;;;
     (m <- create_metric slugify_ascii "constant_5" "Users" None None ∅ ;;
      (unregister_metric_type "constant_5" ;;; ret m))) fresh_world
    = (Returned m, w') /\
    collect_metric m w' =
      (Raised (TypeError "'NoneType' object is not callable"), w').
Proof.
  destruct (metric_outlives_its_type
              slugify_ascii fresh_world "constant_5" "Users" None ∅
              constant_5 eq_refl)
    as (m & w' & Hrun & _ & _ & _ & Hcollect).
  exists m, w'. split; assumption.
Defined.

(** ** Values the column cannot hold *)

Lemma bigint_ok_false (v : Z) :
  bigint_ok v = false <-> v < - 2 ^ 63 \/ 2 ^ 63 - 1 < v.
Proof.
  unfold bigint_ok. rewrite andb_false_iff, !Z.leb_gt. reflexivity.
Qed.

(** X23. When the strategy returns an integer outside the signed 64-bit
    range of the [value] column, [collect_metric] raises: the clock has
    been read once, and no sample is written. *)
Theorem collect_metric_refuses_value_out_of_range
    (self : Metric) (w : World) (cls : MetricType) (v : Z) :
  registry_of w !! metric_type_label self = Some cls ->
  gather_data_sample cls (storage w) self = Returned v ->
  v < - 2 ^ 63 \/ 2 ^ 63 - 1 < v ->
  exists e w',
    collect_metric self w = (Raised e, w') /\
    storage w' = storage w /\
    manager w' = manager w /\
    utc_reads w' = S (utc_reads w).
Proof.
  intros Hreg Hv Hout. apply bigint_ok_false in Hout.
  rewrite collect_metric_eq, Hreg, Hv, Hout.
  eexists. exists (world_clock_read w). repeat split.
Qed.

Lemma collect_metric_refuses_value_out_of_range_witness :
  exists e w',
    collect_metric metric_users world_too_big = (Raised e, w') /\
    storage w' = storage world_too_big /\
    utc_reads w' = 1%nat.
Proof.
  destruct (collect_metric_refuses_value_out_of_range
              metric_users world_too_big too_big (2 ^ 63) eq_refl eq_refl)
    as (e & w' & Hrun & Hdb & _ & Hreads).
  - right. reflexivity.
  - exists e, w'. split; [exact Hrun|]. split; [exact Hdb | exact Hreads].
Defined.
